(** * express-test: the deferred assertions of [ExpectRequest]

    A shallow embedding of [packages/express-test/lib/expect-request.js].
    JavaScript values are a small inductive type, an object is the list of
    its own enumerable properties in enumeration order, a thrown exception
    is a result, and the two kinds of mutable object the file has (the
    error owned by a descriptor, the request with its queue) are threaded
    as explicit state. *)

From Stdlib Require Import ZArith Ascii String.
From stdpp Require Import base list strings pretty.

Open Scope string_scope.
Open Scope list_scope.

(** ** JavaScript values *)

(** A regular expression is its source, its flags and the predicate
    [test] computes on a string. Without the [g] and [y] flags [test]
    neither reads nor writes [lastIndex], and the predicate is all there
    is to it; with one of them the outcome also depends on the calls
    made before on the same object, which the predicate does not hold:
    what is stated of the outcome of [test] is stated of patterns
    without these flags ([stateless], below). *)
Record RegExp := mkRegExp {
  re_source : string;
  re_flags : string;
  re_test : string -> bool
}.

(** Numbers are the integer-valued ones. [VNative] is an object of the
    runtime that a response does not carry as data and that is reached
    through a prototype: a built-in function such as [Object], or a
    prototype object. The model holds the text it renders to; it is
    truthy, it is not [null], and it has no enumerable property of its
    own. *)
#[warnings="-register-all"]
Inductive value :=
| VUndefined
| VNull
| VBool (b : bool)
| VNum (n : Z)
| VStr (s : string)
| VRegExp (r : RegExp)
| VArr (items : list value)
| VObj (props : list (string * value))
| VNative (text : string).

(** [ToString], as a template literal applies it. *)
Fixpoint to_string (v : value) : string :=
  match v with
  | VUndefined => "undefined"
  | VNull => "null"
  | VBool true => "true"
  | VBool false => "false"
  | VNum n => pretty n
  | VStr s => s
  | VRegExp r => "/" +:+ re_source r +:+ "/" +:+ re_flags r
  | VArr items =>
      (fix join (l : list value) : string :=
         match l with
         | [] => EmptyString
         | x :: rest =>
             let shown := match x with
                          | VUndefined | VNull => EmptyString
                          | _ => to_string x
                          end in
             match rest with
             | [] => shown
             | _ :: _ => shown +:+ "," +:+ join rest
             end
         end) items
  | VObj _ => "[object Object]"
  | VNative text => text
  end.

(** [ToBoolean]. *)
Definition truthy (v : value) : bool :=
  match v with
  | VUndefined | VNull => false
  | VBool b => b
  | VNum n => negb (n =? 0)%Z
  | VStr s => negb (String.eqb s EmptyString)
  | VRegExp _ | VArr _ | VObj _ | VNative _ => true
  end.

(** [v == undefined]: true of [undefined] and [null] only. *)
Definition nullish (v : value) : bool :=
  match v with
  | VUndefined | VNull => true
  | _ => false
  end.

(** [v === undefined]. *)
Definition is_undefined (v : value) : bool :=
  match v with
  | VUndefined => true
  | _ => false
  end.

(** [v === s] for a string literal [s]. *)
Definition strict_eq_str (v : value) (s : string) : bool :=
  match v with
  | VStr t => String.eqb t s
  | _ => false
  end.

(** [v instanceof RegExp]. *)
Definition instanceof_RegExp (v : value) : bool :=
  match v with
  | VRegExp _ => true
  | _ => false
  end.

(** The own property [k] of an object, [None] when the object has no
    property of that name. *)
Fixpoint find_prop (k : string) (props : list (string * value)) : option value :=
  match props with
  | [] => None
  | (k', v) :: rest => if String.eqb k k' then Some v else find_prop k rest
  end.

Definition is_digit (c : ascii) : bool :=
  let n := nat_of_ascii c in (48 <=? n)%nat && (n <=? 57)%nat.

Fixpoint all_digits (s : string) : bool :=
  match s with
  | EmptyString => true
  | String c rest => is_digit c && all_digits rest
  end.

(** [k] spells an array index: a decimal numeral without a leading
    zero. No built-in prototype has a member of such a name, so an index
    that an array or a string does not have reads [undefined]. *)
Definition is_array_index (k : string) : bool :=
  match k with
  | EmptyString => false
  | String c rest =>
      all_digits k && (negb (Ascii.eqb c "0") || String.eqb rest EmptyString)
  end.

(** The array index a property key spells, below [n]. *)
Definition index_of_key (k : string) (n : nat) : option nat :=
  find (fun i => String.eqb (pretty i) k) (seq 0 n).

Definition string_at (s : string) (i : nat) : value :=
  match String.get i s with
  | Some c => VStr (String c EmptyString)
  | None => VUndefined
  end.

(** ** Strings *)

Definition lower_ascii (c : ascii) : ascii :=
  let n := nat_of_ascii c in
  if (65 <=? n)%nat && (n <=? 90)%nat then ascii_of_nat (n + 32) else c.

(** [String.prototype.toLowerCase] on ASCII text (header names are ASCII
    tokens); other bytes are kept. *)
Fixpoint toLowerCase (s : string) : string :=
  match s with
  | EmptyString => EmptyString
  | String c rest => String (lower_ascii c) (toLowerCase rest)
  end.

Fixpoint drop_chars (n : nat) (s : string) : string :=
  match n, s with
  | O, _ => s
  | S _, EmptyString => EmptyString
  | S m, String _ rest => drop_chars m rest
  end.

(** The text before and after the first occurrence of [pat] in [s]. *)
Fixpoint split_first (pat s : string) : option (string * string) :=
  if String.prefix pat s then Some (EmptyString, drop_chars (String.length pat) s)
  else match s with
       | EmptyString => None
       | String c rest =>
           match split_first pat rest with
           | Some (before, after) => Some (String c before, after)
           | None => None
           end
       end.

(** [GetSubstitution] for a string pattern: there are no captures, so
    only [$$], [$&], [$`] and [$'] are special in the replacement. *)
Fixpoint get_substitution (matched before after template : string) : string :=
  match template with
  | EmptyString => EmptyString
  | String "$" (String "$" rest) =>
      "$" +:+ get_substitution matched before after rest
  | String "$" (String "&" rest) =>
      matched +:+ get_substitution matched before after rest
  | String "$" (String "`" rest) =>
      before +:+ get_substitution matched before after rest
  | String "$" (String "'" rest) =>
      after +:+ get_substitution matched before after rest
  | String c rest => String c (get_substitution matched before after rest)
  end.

(** [s.replace(pat, replacement)] with a string pattern: the first
    occurrence only. *)
Definition js_replace (s pat replacement : string) : string :=
  match split_first pat s with
  | None => s
  | Some (before, after) =>
      before +:+ get_substitution pat before after replacement +:+ after
  end.

(** The line feed a ["\n"] escape denotes. *)
Definition newline : string := String "010"%char EmptyString.

(** [s] occurs in [t]. *)
Definition contains (t s : string) : Prop :=
  exists before after, t = before +:+ s +:+ after.

(** ** Errors and the two effects: mutation and throwing *)

(** An [Error] object. [name] tells the class apart; [expected],
    [actual], [showDiff] and [contextString] are the fields the checks
    write on an [AssertionError]. *)
Module Err.
Record t := mk {
  name : string;
  message : string;
  stack : string;
  expected : value;
  actual : value;
  showDiff : value;
  contextString : string
}.

Definition set_message (m : string) (e : t) : t :=
  mk (name e) m (stack e) (expected e) (actual e) (showDiff e) (contextString e).
Definition set_stack (s : string) (e : t) : t :=
  mk (name e) (message e) s (expected e) (actual e) (showDiff e) (contextString e).
Definition set_expected (v : value) (e : t) : t :=
  mk (name e) (message e) (stack e) v (actual e) (showDiff e) (contextString e).
Definition set_actual (v : value) (e : t) : t :=
  mk (name e) (message e) (stack e) (expected e) v (showDiff e) (contextString e).
Definition set_showDiff (v : value) (e : t) : t :=
  mk (name e) (message e) (stack e) (expected e) (actual e) v (contextString e).
Definition set_contextString (c : string) (e : t) : t :=
  mk (name e) (message e) (stack e) (expected e) (actual e) (showDiff e) c.

(** The text V8 stores in [stack] when the error is created: a header
    holding the message, then the frames of the capture site. *)
Definition captured_stack (header msg frames : string) : string :=
  header +:+ ": " +:+ msg +:+ newline +:+ frames.

(** [new Error(msg)]. *)
Definition Error (msg frames : string) : t :=
  mk "Error" msg (captured_stack "Error" msg frames)
     VUndefined VUndefined VUndefined EmptyString.

(** [new assert.AssertionError({message, expected, stackStartFn})];
    [frames] are the frames above [stackStartFn]. *)
Definition AssertionError (msg : string) (exp : value) (frames : string) : t :=
  mk "AssertionError" msg
     (captured_stack "AssertionError [ERR_ASSERTION]" msg frames)
     exp VUndefined VUndefined EmptyString.

(** The [TypeError] the engine raises itself. *)
Definition TypeError (msg : string) : t :=
  mk "TypeError" msg (captured_stack "TypeError" msg EmptyString)
     VUndefined VUndefined VUndefined EmptyString.
End Err.

(** What a call comes back with: a value, or a thrown error. Thrown
    values are [Error] objects throughout. *)
Inductive Result (A : Type) :=
| Ok (a : A)
| Throw (e : Err.t).
Arguments Ok {A} a.
Arguments Throw {A} e.

(** A computation that may mutate a state [S] and may throw; what was
    written before a throw stays written. *)
Definition M (S A : Type) : Type := S -> Result A * S.

Definition ret {S A} (a : A) : M S A := fun s => (Ok a, s).

Definition bind {S A B} (m : M S A) (k : A -> M S B) : M S B :=
  fun s =>
    match m s with
    | (Ok a, s') => k a s'
    | (Throw e, s') => (Throw e, s')
    end.

Definition throw {S A} (e : Err.t) : M S A := fun s => (Throw e, s).

Definition read {S} : M S S := fun s => (Ok s, s).

Definition modify {S} (f : S -> S) : M S unit := fun s => (Ok tt, f s).

(** A pure step that may throw. *)
Definition lift {S A} (r : Result A) : M S A := fun s => (r, s).

(** [try { m } catch (e) { handler e }]. *)
Definition try_catch {S A} (m : M S A) (handler : Err.t -> M S A) : M S A :=
  fun s =>
    match m s with
    | (Ok a, s') => (Ok a, s')
    | (Throw e, s') => handler e s'
    end.

Declare Scope js_scope.
Delimit Scope js_scope with js.
Notation "x <- m ;; k" := (bind m (fun x => k))
  (at level 100, m at next level, right associativity) : js_scope.
Notation "m ;; k" := (bind m (fun _ => k))
  (at level 100, right associativity) : js_scope.
Open Scope js_scope.

(** [when c m]: [if (c) { m }]. *)
Definition when {S} (c : bool) (m : M S unit) : M S unit :=
  if c then m else ret tt.

(** [Object.keys(v)]. *)
Definition Object_keys (v : value) : Result (list string) :=
  match v with
  | VUndefined | VNull =>
      Throw (Err.TypeError "Cannot convert undefined or null to object")
  | VObj props => Ok (map fst props)
  | VArr items => Ok (map pretty (seq 0 (length items)))
  | VStr s => Ok (map pretty (seq 0 (String.length s)))
  | VBool _ | VNum _ | VRegExp _ | VNative _ => Ok []
  end.

(** [forEach]: the first exception leaves the loop. *)
Fixpoint forEach {S A} (l : list A) (f : A -> M S unit) : M S unit :=
  match l with
  | [] => ret tt
  | x :: rest => f x ;; forEach rest f
  end.

(** [a && b] as an expression: [b] is evaluated only if [a] is truthy. *)
Definition js_and {S} (a b : M S value) : M S value :=
  x <- a ;; if truthy x then b else ret x.

(** The double quote, for the messages that contain one. *)
Definition dquote : string := String "034"%char EmptyString.

(** ** The response and the descriptors *)

(** Modelled from the spec: the response object the Request collaborator
    of [./request] resolves, with an integer [statusCode], the header
    mapping [headers] and the parsed payload [body]. *)
Record Response := mkResponse {
  statusCode : Z;
  headers : value;
  body : value
}.

(** [result[k]]. *)
Definition response_prop (result : Response) (k : string) : value :=
  if String.eqb k "statusCode" then VNum (statusCode result)
  else if String.eqb k "headers" then headers result
  else if String.eqb k "body" then body result
  else VUndefined.

(** The function a descriptor carries in [fn]: the closure [expect]
    builds around the user's callback, or one of the three methods. A
    callback returns ([None]) or throws. *)
Inductive Fn :=
| FnWrapper (callback : Response -> option Err.t)
| FnAssertStatus
| FnAssertHeader
| FnAssertSnapshot.

(** [ExpressTestAssertion]; a field the object does not have reads
    [VUndefined]. *)
Record ExpressTestAssertion := mkAssertion {
  fn : Fn;
  type : value;
  error : Err.t;
  expected : value;
  expectedValue : value;
  expectedField : value;
  properties : value;
  field : value
}.

Definition set_error (e : Err.t) (a : ExpressTestAssertion) : ExpressTestAssertion :=
  mkAssertion (fn a) (type a) e (expected a) (expectedValue a)
              (expectedField a) (properties a) (field a).

(** What [error] holds before [_addAssertion] has assigned it. *)
Definition unassigned : Err.t :=
  Err.mk EmptyString EmptyString EmptyString VUndefined VUndefined VUndefined EmptyString.

(** Modelled from the spec: [RequestOptions] of [./request], seen through
    the one member this file calls, the rendering [toString()]. *)
Record RequestOptions := mkOptions {
  toString : string
}.

(** The request object: the fields of [this] the file touches. *)
Record ExpectRequest := mkRequest {
  reqOptions : RequestOptions;
  assertions : list ExpressTestAssertion
}.

(** What the Snapshot Matcher hands back; [message] is what calling
    [match.message()] renders. *)
Module Match.
Record t := mk {
  pass : bool;
  message : string;
  expected : value;
  actual : value
}.
End Match.

(** [assert.equal], [assert.notEqual] and [assert.notStrictEqual] given
    an [Error] as third argument: when the comparison does not hold,
    that very object is thrown, as the checks have left it. *)
Definition fail_unless (holds : bool) : M Err.t unit :=
  fun error => if holds then (Ok tt, error) else (Throw error, error).

(** ** Registration *)

(** A JavaScript argument: a function, or a value whose [typeof] is not
    ['function']. *)
Inductive Argument :=
| Function (f : Response -> option Err.t)
| NotFunction (v : value).

(** [v.toLowerCase()]. *)
Definition call_toLowerCase (v : value) : Result string :=
  match v with
  | VStr s => Ok (toLowerCase s)
  | VUndefined | VNull =>
      Throw (Err.TypeError
               ("Cannot read properties of " +:+ to_string v +:+
                " (reading 'toLowerCase')"))
  | _ => Throw (Err.TypeError "expectedField.toLowerCase is not a function")
  end.

(** [site] stands for the frames V8 captures above [_addAssertion]: the
    registration method and its caller. *)
Definition _addAssertion (site : string) (assertion : ExpressTestAssertion)
  : M ExpectRequest unit :=
  this <- read ;;
  let error :=
    Err.AssertionError "Unexpected assertion error" (expected assertion) site in
  let error := Err.set_contextString (toString (reqOptions this)) error in
  let assertion := set_error error assertion in
  modify (fun this => mkRequest (reqOptions this) (assertions this ++ [assertion])).

Definition expect (site : string) (callback : Argument)
  : M ExpectRequest ExpectRequest :=
  match callback with
  | NotFunction _ =>
      throw (Err.Error
               "express-test expect() requires a callback function, did you mean expectStatus or expectHeader?"
               site)
  | Function callback =>
      let assertion :=
        mkAssertion (FnWrapper callback) (VStr "body") unassigned
                    VUndefined VUndefined VUndefined VUndefined VUndefined in
      _addAssertion site assertion ;;
      read
  end.

Definition expectStatus (site : string) (expected : value)
  : M ExpectRequest ExpectRequest :=
  let assertion :=
    mkAssertion FnAssertStatus (VStr "status") unassigned
                expected VUndefined VUndefined VUndefined VUndefined in
  _addAssertion site assertion ;;
  read.

Definition expectHeader (site : string) (expectedField expectedValue : value)
  : M ExpectRequest ExpectRequest :=
  lowered <- lift (call_toLowerCase expectedField) ;;
  let assertion :=
    mkAssertion FnAssertHeader (VStr "header") unassigned
                VUndefined expectedValue (VStr lowered) VUndefined VUndefined in
  _addAssertion site assertion ;;
  read.

(** [properties = {}]: the default stands in for [undefined]. *)
Definition default_properties (properties : value) : value :=
  match properties with
  | VUndefined => VObj []
  | _ => properties
  end.

Definition matchBodySnapshot (site : string) (properties : value)
  : M ExpectRequest ExpectRequest :=
  let properties := default_properties properties in
  let assertion :=
    mkAssertion FnAssertSnapshot (VStr "body") unassigned
                VUndefined VUndefined VUndefined properties (VStr "body") in
  _addAssertion site assertion ;;
  read.

Definition matchHeaderSnapshot (site : string) (properties : value)
  : M ExpectRequest ExpectRequest :=
  let properties := default_properties properties in
  let assertion :=
    mkAssertion FnAssertSnapshot (VStr "header") unassigned
                VUndefined VUndefined VUndefined properties (VStr "headers") in
  _addAssertion site assertion ;;
  read.

(** One call of the callback given to [finalize]: [callback(error)]
    leaves [response] undefined, [callback(null, response)] passes no
    error. *)
Record Delivery := mkDelivery {
  delivered_error : option Err.t;
  delivered_response : option Response
}.

(** Modelled from the spec: how [finalize] of the Request collaborator in
    [./request] completes, handing its continuation either a transport
    error or the response. *)
Inductive Completion :=
| Failed (error : Err.t)
| Responded (response : Response).

(** ** The checks *)

Section Checks.

(** What the file uses but does not define. [prototype_member v k] is
    what the prototype chain of [v] holds under a name [k] that [v] does
    not own: the text the member renders to ([Object.prototype] gives
    every plain object [constructor], [toString] and so on), [None]
    when no prototype has the name or the object has no prototype. Then
    [JSON.stringify], the [StringToNumber] conversion behind [==]
    ([None] for a text that is not an integer),
    [makeMessageFromMatchMessage] of [./utils] and
    [snapshotManager.match] of [@tryghost/jest-snapshot]. *)
Variable prototype_member : value -> string -> option string.
Variable JSON_stringify : value -> string.
Variable StringToNumber : string -> option Z.
Variable makeMessageFromMatchMessage : string -> string -> string.
Variable snapshotManager_match : value -> value -> string -> Match.t.

(** What [v[k]] reads when [v] does not own [k]. *)
Definition inherited (v : value) (k : string) : value :=
  match prototype_member v k with
  | Some text => VNative text
  | None => VUndefined
  end.

(** Member access [v[k]]: the own property when there is one, else the
    prototype chain. *)
Definition get_prop (v : value) (k : string) : Result value :=
  match v with
  | VUndefined | VNull =>
      Throw (Err.TypeError
               ("Cannot read properties of " +:+ to_string v +:+
                " (reading '" +:+ k +:+ "')"))
  | VObj props =>
      match find_prop k props with
      | Some own => Ok own
      | None => Ok (inherited v k)
      end
  | VArr items =>
      if String.eqb k "length" then Ok (VNum (Z.of_nat (length items)))
      else if is_array_index k then
        match index_of_key k (length items) with
        | Some i => Ok (nth i items VUndefined)
        | None => Ok VUndefined
        end
      else Ok (inherited v k)
  | VStr s =>
      if String.eqb k "length" then Ok (VNum (Z.of_nat (String.length s)))
      else if is_array_index k then
        match index_of_key k (String.length s) with
        | Some i => Ok (string_at s i)
        | None => Ok VUndefined
        end
      else Ok (inherited v k)
  | VBool _ | VNum _ | VRegExp _ | VNative _ => Ok (inherited v k)
  end.

(** [n == v] for a number [n]. *)
Definition loose_eq_num (n : Z) (v : value) : bool :=
  match v with
  | VNum m => (n =? m)%Z
  | VBool b => (n =? (if b then 1 else 0))%Z
  | VStr s =>
      match StringToNumber s with
      | Some m => (n =? m)%Z
      | None => false
      end
  | VUndefined | VNull => false
  | VRegExp _ | VArr _ | VObj _ | VNative _ =>
      match StringToNumber (to_string v) with
      | Some m => (n =? m)%Z
      | None => false
      end
  end.

(** The closure of [expect]; the state is [assertion.error]. *)
Definition wrapperFn (callback : Response -> option Err.t)
           (response : Response) (assertion : ExpressTestAssertion)
  : M Err.t unit :=
  match callback response with
  | None => ret tt
  | Some error =>
      own <- read ;;
      throw (Err.set_stack
               (js_replace (Err.stack own) (Err.message own) (Err.message error))
               error)
  end.

(** [response.body.errors[0].message]. *)
Definition first_error_message (response : Response) : M Err.t value :=
  errors <- lift (get_prop (body response) "errors") ;;
  first <- lift (get_prop errors "0") ;;
  lift (get_prop first "message").

(** [response.body && response.body.errors &&
    response.body.errors[0].message]. *)
Definition error_detail_guard (response : Response) : M Err.t value :=
  js_and (ret (body response))
         (js_and (lift (get_prop (body response) "errors"))
                 (first_error_message response)).

Definition _assertStatus (response : Response) (assertion : ExpressTestAssertion)
  : M Err.t unit :=
  error <- read ;;
  modify (Err.set_message
            ("Expected statusCode " +:+ to_string (expected assertion) +:+
             ", got statusCode " +:+ pretty (statusCode response) +:+
             " " +:+ Err.contextString error)) ;;
  guard <- error_detail_guard response ;;
  when (truthy guard)
       (detail <- first_error_message response ;;
        modify (fun error =>
                  Err.set_message
                    (Err.message error +:+ newline +:+ to_string detail) error)) ;;
  modify (Err.set_actual (VNum (statusCode response))) ;;
  fail_unless (loose_eq_num (statusCode response) (expected assertion)).

Definition _assertHeader (response : Response) (assertion : ExpressTestAssertion)
  : M Err.t unit :=
  let expectedField := expectedField assertion in
  let expectedValue := expectedValue assertion in
  actual <- lift (get_prop (headers response) (to_string expectedField)) ;;
  let expectedHeaderString :=
    to_string expectedField +:+ ": " +:+ to_string expectedValue in
  let actualHeaderString :=
    to_string expectedField +:+ ": " +:+ to_string actual in
  modify (Err.set_expected (VStr expectedHeaderString)) ;;
  modify (Err.set_actual (VStr actualHeaderString)) ;;
  error <- read ;;
  modify (Err.set_message
            ("Expected header " +:+ dquote +:+ expectedHeaderString +:+ dquote +:+
             " to exist, got headers: " +:+ JSON_stringify (headers response) +:+
             " " +:+ Err.contextString error)) ;;
  fail_unless (negb (is_undefined actual)) ;;
  match expectedValue with
  | VRegExp pattern =>
      modify (Err.set_expected expectedValue) ;;
      modify (Err.set_actual actual) ;;
      modify (Err.set_message
                ("Expected header " +:+ dquote +:+ to_string expectedField +:+
                 dquote +:+ " to have value matching " +:+ dquote +:+
                 to_string expectedValue +:+ dquote +:+ ", got " +:+ dquote +:+
                 to_string actual +:+ dquote +:+ " " +:+ Err.contextString error)) ;;
      fail_unless (re_test pattern (to_string actual))
  | _ =>
      modify (Err.set_message
                ("Expected header " +:+ dquote +:+ expectedHeaderString +:+
                 dquote +:+ ", got " +:+ dquote +:+ actualHeaderString +:+
                 dquote +:+ " " +:+ Err.contextString error)) ;;
      fail_unless (String.eqb expectedHeaderString actualHeaderString)
  end.

Definition _assertSnapshot (result : Response) (assertion : ExpressTestAssertion)
  : M Err.t unit :=
  let properties := properties assertion in
  let field := field assertion in
  let target := response_prop result (to_string field) in
  when (negb (truthy target))
       (error <- read ;;
        modify (Err.set_message
                  ("Unable to match snapshot on undefined field " +:+
                   to_string field +:+ " " +:+ Err.contextString error)) ;;
        modify (Err.set_expected field) ;;
        modify (Err.set_actual (VStr "undefined")) ;;
        fail_unless (negb (nullish target))) ;;
  let hint := "[" +:+ to_string field +:+ "]" in
  let match_ := snapshotManager_match target properties hint in
  keys <- lift (Object_keys properties) ;;
  forEach keys (fun prop =>
    let errorMessage :=
      dquote +:+ "response." +:+ to_string field +:+ dquote +:+
      " is missing the expected property " +:+ dquote +:+ prop +:+ dquote in
    modify (Err.set_message
              (makeMessageFromMatchMessage (Match.message match_) errorMessage)) ;;
    modify (Err.set_expected (VStr prop)) ;;
    modify (Err.set_actual (VStr "undefined")) ;;
    modify (Err.set_showDiff (VBool false)) ;;
    found <- lift (get_prop target prop) ;;
    fail_unless (negb (nullish found))) ;;
  when (negb (Match.pass match_))
       (let errorMessage :=
          dquote +:+ "response." +:+ to_string field +:+ dquote +:+
          " does not match snapshot." in
        modify (Err.set_message
                  (makeMessageFromMatchMessage (Match.message match_) errorMessage)) ;;
        modify (Err.set_expected (Match.expected match_)) ;;
        modify (Err.set_actual (Match.actual match_)) ;;
        modify (Err.set_showDiff (VBool false))) ;;
  fail_unless (Match.pass match_).

(** [assertion.fn(response, assertion)], on the descriptor's own error. *)
Definition call_fn (response : Response) (assertion : ExpressTestAssertion)
  : M Err.t unit :=
  match fn assertion with
  | FnWrapper callback => wrapperFn callback response assertion
  | FnAssertStatus => _assertStatus response assertion
  | FnAssertHeader => _assertHeader response assertion
  | FnAssertSnapshot => _assertSnapshot response assertion
  end.

(** ** The scheduler and the finalizer *)

(** The state of one [finalize]: the request, whose queue holds the
    descriptors (a position in it is the identity of a descriptor, and
    the buckets of [_assertAll] hold positions), and two logs that the
    program does not keep: the positions whose [fn] was called and the
    argument lists [callback] was called with, oldest first. *)
Record State := mkState {
  this : ExpectRequest;
  calls : list nat;
  deliveries : list Delivery
}.

(** [assertion.fn(response, assertion)] for the descriptor at position
    [i]: the call is logged and what the check wrote on the error stays
    on the descriptor, also when the check throws. *)
Definition invoke (response : Response) (i : nat) : M State unit :=
  fun st =>
    match assertions (this st) !! i with
    | None => (Ok tt, st)
    | Some assertion =>
        let '(outcome, error) := call_fn response assertion (error assertion) in
        (outcome,
         mkState (mkRequest (reqOptions (this st))
                            (<[i := set_error error assertion]> (assertions (this st))))
                 (calls st ++ [i])
                 (deliveries st))
    end.

(** The first loop of [_assertAll], over the positions [todo] that are
    left, with the two buckets filled so far. *)
Fixpoint first_pass (response : Response) (todo : list nat)
         (statusCodeAssertions headerAssertions : list nat)
  : M State (list nat * list nat) :=
  match todo with
  | [] => ret (statusCodeAssertions, headerAssertions)
  | i :: rest =>
      st <- read ;;
      match assertions (this st) !! i with
      | None => first_pass response rest statusCodeAssertions headerAssertions
      | Some assertion =>
          if strict_eq_str (type assertion) "body" then
            invoke response i ;;
            first_pass response rest statusCodeAssertions headerAssertions
          else if strict_eq_str (type assertion) "status" then
            first_pass response rest (statusCodeAssertions ++ [i]) headerAssertions
          else if strict_eq_str (type assertion) "header" then
            first_pass response rest statusCodeAssertions (headerAssertions ++ [i])
          else
            first_pass response rest statusCodeAssertions (headerAssertions ++ [i])
      end
  end.

Definition _assertAll (response : Response) : M State unit :=
  st <- read ;;
  buckets <- first_pass response (seq 0 (length (assertions (this st)))) [] [] ;;
  let '(statusCodeAssertions, headerAssertions) := buckets in
  forEach headerAssertions (invoke response) ;;
  forEach statusCodeAssertions (invoke response).

(** [callback(error, response)]: the call is logged; the callback
    returns or throws. *)
Definition call_callback (callback : Delivery -> option Err.t) (d : Delivery)
  : M State unit :=
  fun st =>
    (match callback d with
     | None => Ok tt
     | Some thrown => Throw thrown
     end,
     mkState (this st) (calls st) (deliveries st ++ [d])).

Definition finalize (callback : Delivery -> option Err.t) (outcome : Completion)
  : M State unit :=
  match outcome with
  | Failed error => call_callback callback (mkDelivery (Some error) None)
  | Responded response =>
      try_catch
        (st <- read ;;
         when (negb (Nat.eqb (length (assertions (this st))) 0))
              (_assertAll response) ;;
         call_callback callback (mkDelivery None (Some response)))
        (fun _error => call_callback callback (mkDelivery (Some _error) None))
  end.

(** ** The vocabulary of the specification *)

(** The three priority buckets; a kind that is not recognised, or not
    there at all, counts as [Header]. *)
Inductive Kind := Body | Header | Status.

#[local] Instance Kind_eq_dec : EqDecision Kind.
Proof. solve_decision. Defined.

Definition kind_of (assertion : ExpressTestAssertion) : Kind :=
  if strict_eq_str (type assertion) "body" then Body
  else if strict_eq_str (type assertion) "status" then Status
  else Header.

(** The positions of the descriptors of kind [k], in registration
    order. *)
Definition positions_of (k : Kind) (queue : list ExpressTestAssertion) : list nat :=
  filter (fun i => kind_of <$> queue !! i = Some k) (seq 0 (length queue)).

(** The order section 4.3 fixes: body, then header, then status. *)
Definition scheduled_order (queue : list ExpressTestAssertion) : list nat :=
  positions_of Body queue ++ positions_of Header queue ++ positions_of Status queue.

(** The outcome of the check of the descriptor at position [i], taken
    on its own. *)
Definition check_outcome (response : Response) (queue : list ExpressTestAssertion)
           (i : nat) : Result unit :=
  match queue !! i with
  | Some assertion => (call_fn response assertion (error assertion)).1
  | None => Ok tt
  end.

Definition is_ok {A} (r : Result A) : bool :=
  match r with
  | Ok _ => true
  | Throw _ => false
  end.

(** Fail-fast evaluation as the specification words it: the checks of
    [order] one after the other, stopping at the first failure. The
    result is the positions evaluated and the outcome. *)
Fixpoint fail_fast_run (response : Response) (queue : list ExpressTestAssertion)
         (order : list nat) : list nat * Result unit :=
  match order with
  | [] => ([], Ok tt)
  | i :: rest =>
      match check_outcome response queue i with
      | Ok _ =>
          let '(evaluated, outcome) := fail_fast_run response queue rest in
          (i :: evaluated, outcome)
      | Throw e => ([i], Throw e)
      end
  end.

(** Two queues that differ in the [error] objects at most. *)
Definition same_descriptors (q0 q : list ExpressTestAssertion) : Prop :=
  Forall2 (fun a0 a => set_error unassigned a0 = set_error unassigned a) q0 q.

(** A delivery carries exactly one of an error and a response. *)
Definition exactly_one_of (d : Delivery) : Prop :=
  match delivered_error d, delivered_response d with
  | Some _, None => True
  | None, Some _ => True
  | _, _ => False
  end.

Definition carries_error (d : Delivery) : bool :=
  match delivered_error d with
  | Some _ => true
  | None => false
  end.

(** What a call of the callback comes back with. *)
Definition callback_result (callback : Delivery -> option Err.t) (d : Delivery)
  : Result unit :=
  match callback d with
  | None => Ok tt
  | Some thrown => Throw thrown
  end.

(** The text of the misuse error of [expect]. *)
Definition misuse_message : string :=
  "express-test expect() requires a callback function, did you mean expectStatus or expectHeader?".

(** The error [_addAssertion] builds for a descriptor registered on
    [this] from [site]. *)
Definition registered_error (site : string) (this : ExpectRequest) (expected : value)
  : Err.t :=
  Err.set_contextString (toString (reqOptions this))
    (Err.AssertionError "Unexpected assertion error" expected site).

(** The request after one more descriptor. *)
Definition with_descriptor (this : ExpectRequest) (assertion : ExpressTestAssertion)
  : ExpectRequest :=
  mkRequest (reqOptions this) (assertions this ++ [assertion]).



(** The rendered pair ["field: value"]. *)
Definition rendered_header (field : string) (v : value) : string :=
  field +:+ ": " +:+ to_string v.

(** The descriptor [expectHeader(field, value)] registers. *)
Definition header_descriptor (site : string) (this : ExpectRequest)
           (field : string) (v : value) : ExpressTestAssertion :=
  mkAssertion FnAssertHeader (VStr "header") (registered_error site this VUndefined)
              VUndefined v (VStr (toLowerCase field)) VUndefined VUndefined.



Definition literal_mismatch_message (field : string) (v actual : value)
           (context : string) : string :=
  "Expected header " +:+ dquote +:+ rendered_header field v +:+ dquote +:+
  ", got " +:+ dquote +:+ rendered_header field actual +:+ dquote +:+
  " " +:+ context.

(** The two messages of the snapshot check that do not depend on the
    Snapshot Matcher's verdict. *)
Definition undefined_field_message (field : value) (context : string) : string :=
  "Unable to match snapshot on undefined field " +:+ to_string field +:+
  " " +:+ context.

Definition missing_property_message (field : value) (prop : string) : string :=
  dquote +:+ "response." +:+ to_string field +:+ dquote +:+
  " is missing the expected property " +:+ dquote +:+ prop +:+ dquote.

(** The descriptors [matchBodySnapshot(properties)] and
    [matchHeaderSnapshot(properties)] register. *)
Definition body_snapshot_descriptor (site : string) (this : ExpectRequest)
           (properties : value) : ExpressTestAssertion :=
  mkAssertion FnAssertSnapshot (VStr "body") (registered_error site this VUndefined)
              VUndefined VUndefined VUndefined
              (default_properties properties) (VStr "body").

Definition header_snapshot_descriptor (site : string) (this : ExpectRequest)
           (properties : value) : ExpressTestAssertion :=
  mkAssertion FnAssertSnapshot (VStr "header") (registered_error site this VUndefined)
              VUndefined VUndefined VUndefined
              (default_properties properties) (VStr "headers").

(** [s] occurs in [t], decided. *)
Definition occurs (s t : string) : bool :=
  match split_first s t with
  | Some _ => true
  | None => false
  end.

(** A pattern without the [g] and [y] flags: [test] does not touch
    [lastIndex]. *)
Definition stateless (pattern : RegExp) : bool :=
  negb (occurs "g" (re_flags pattern)) && negb (occurs "y" (re_flags pattern)).

(** No dollar sign in [s]. *)
Fixpoint dollar_free (s : string) : bool :=
  match s with
  | EmptyString => true
  | String c rest => negb (Ascii.eqb c "$") && dollar_free rest
  end.

(** The splice as the specification words it: the first occurrence of
    the old message in the captured stack replaced by the new message,
    letter for letter. *)
Definition literal_splice (stack old_message new_message : string) : string :=
  match split_first old_message stack with
  | None => stack
  | Some (before, after) => before +:+ new_message +:+ after
  end.

(** The [TypeError] of reading [message] off an element that is not
    there. *)
Definition message_of_undefined : Err.t :=
  Err.TypeError "Cannot read properties of undefined (reading 'message')".

(** The message of a status mismatch before any detail is appended. *)
Definition status_message (expected : value) (actual : Z) (context : string) : string :=
  "Expected statusCode " +:+ to_string expected +:+
  ", got statusCode " +:+ pretty actual +:+ " " +:+ context.

(** ** Sample requests and responses *)

Definition sample_options : RequestOptions := mkOptions "GET /api/posts".

Definition sample_request : ExpectRequest := mkRequest sample_options [].

(** A callback that passes, and one whose error has a message with a
    doubled dollar sign. *)
Definition passing_callback : Response -> option Err.t := fun _ => None.

Definition dollar_callback : Response -> option Err.t :=
  fun _ => Some (Err.Error "costs $$5" "    at callback").

(** [expectStatus(200)], [expectStatus(201)],
    [expectHeader('Content-Type', 'application/json')] and
    [expect(callback)], registered in this order. *)
Definition sample_queue : ExpectRequest :=
  (expect "    at test:4" (Function passing_callback)
     (expectHeader "    at test:3" (VStr "Content-Type") (VStr "application/json")
        (expectStatus "    at test:2" (VNum 201)
           (expectStatus "    at test:1" (VNum 200) sample_request).2).2).2).2.

(** [expectStatus(200)], [expectHeader('Content-Type', /json/)],
    [matchBodySnapshot({title: 'Hello'})] and [expect(callback)]. *)
Definition json_pattern : RegExp :=
  mkRegExp "json" EmptyString (occurs "json").

Definition passing_queue : ExpectRequest :=
  (expect "    at test:4" (Function passing_callback)
     (matchBodySnapshot "    at test:3" (VObj [("title", VStr "Hello")])
        (expectHeader "    at test:2" (VStr "Content-Type") (VRegExp json_pattern)
           (expectStatus "    at test:1" (VNum 200) sample_request).2).2).2).2.

(** [expectStatus(200)] alone, and [expect(dollar_callback)] alone. *)
Definition status_queue : ExpectRequest :=
  (expectStatus "    at test:1" (VNum 200) sample_request).2.

Definition dollar_queue : ExpectRequest :=
  (expect "    at test:1" (Function dollar_callback) sample_request).2.

(** A 404 whose body is [{errors: [{message: "Resource not found"}]}],
    and one whose body is [{errors: []}]. *)
Definition not_found_response : Response :=
  mkResponse 404
    (VObj [("content-type", VStr "application/json")])
    (VObj [("errors", VArr [VObj [("message", VStr "Resource not found")]])]).

Definition empty_errors_response : Response :=
  mkResponse 404
    (VObj [("content-type", VStr "application/json")])
    (VObj [("errors", VArr [])]).

(** A 200 whose body has a [title] and no [id]. *)
Definition post_response : Response :=
  mkResponse 200
    (VObj [("content-type", VStr "application/json")])
    (VObj [("title", VStr "Hello")]).

(** Stand-ins for the collaborators, to run the samples: a matcher that
    always passes among them, and prototypes that give a plain object
    and an array their [constructor] and [toString]. *)
Definition sample_prototype (v : value) (k : string) : option string :=
  match v with
  | VObj _ =>
      if String.eqb k "constructor" then Some "function Object() { [native code] }"
      else if String.eqb k "toString" then Some "function toString() { [native code] }"
      else None
  | VArr _ =>
      if String.eqb k "constructor" then Some "function Array() { [native code] }"
      else if String.eqb k "toString" then Some "function toString() { [native code] }"
      else None
  | _ => None
  end.

Definition sample_stringify (v : value) : string := "{}".

Definition sample_number (s : string) : option Z := None.

Definition sample_make_message (message errorMessage : string) : string :=
  errorMessage +:+ newline +:+ message.

Definition sample_match (v properties : value) (hint : string) : Match.t :=
  Match.mk true "snapshot matches" VUndefined VUndefined.

Definition initial (this : ExpectRequest) : State := mkState this [] [].

(** ** Registration calls as values, and what evaluation keeps *)

(** The message [_addAssertion] gives every new error. *)
Definition placeholder_message : string := "Unexpected assertion error".

(** One call of a registration method with its arguments. *)
Inductive Registration :=
| CallExpect (callback : Argument)
| CallExpectStatus (expected : value)
| CallExpectHeader (expectedField expectedValue : value)
| CallMatchBodySnapshot (properties : value)
| CallMatchHeaderSnapshot (properties : value).

Definition register (site : string) (call : Registration)
  : M ExpectRequest ExpectRequest :=
  match call with
  | CallExpect callback => expect site callback
  | CallExpectStatus expected => expectStatus site expected
  | CallExpectHeader expectedField expectedValue =>
      expectHeader site expectedField expectedValue
  | CallMatchBodySnapshot properties => matchBodySnapshot site properties
  | CallMatchHeaderSnapshot properties => matchHeaderSnapshot site properties
  end.

(** A chain [request.a(..).b(..)]: every method is called on what the
    one before returned, which is the request; the first exception ends
    the chain. *)
Fixpoint chain (calls : list (string * Registration)) : M ExpectRequest unit :=
  match calls with
  | [] => ret tt
  | (site, call) :: rest => register site call ;; chain rest
  end.

(** The error of a descriptor is as [_addAssertion] of this request
    makes it. *)
Definition registered_on (this : ExpectRequest) (a : ExpressTestAssertion) : Prop :=
  Err.name (error a) = "AssertionError" /\
  Err.message (error a) = placeholder_message /\
  Err.expected (error a) = expected a /\
  Err.contextString (error a) = toString (reqOptions this).

(** Two states of an error that differ in what the checks write
    ([message], [expected], [actual], [showDiff]) at most. *)
Definition same_origin (e e' : Err.t) : Prop :=
  Err.name e' = Err.name e /\
  Err.stack e' = Err.stack e /\
  Err.contextString e' = Err.contextString e.

(** The message of a snapshot that the matcher rejects. *)
Definition snapshot_mismatch_message (field : value) : string :=
  dquote +:+ "response." +:+ to_string field +:+ dquote +:+
  " does not match snapshot.".

(** A step on an error object that keeps its origin and throws, if it
    throws, that object as it then is or a [TypeError]. *)
Definition keeps_origin {A} (m : M Err.t A) : Prop :=
  forall e,
    same_origin e (m e).2 /\
    forall t, (m e).1 = Throw t -> t = (m e).2 \/ Err.name t = "TypeError".

(** A pure step that throws a [TypeError] or nothing. *)
Definition only_TypeError {A} (r : Result A) : Prop :=
  forall t, r = Throw t -> Err.name t = "TypeError".

(** [a] is the descriptor [a0] after evaluation: the same but for what
    the checks write on its error. *)
Definition evaluated_version (a0 a : ExpressTestAssertion) : Prop :=
  set_error (error a0) a = a0 /\ same_origin (error a0) (error a).

(** The error the status check leaves behind when its guard evaluates
    to [guard]: the message with both codes, the detail appended when
    the guard is truthy, and the actual code. *)
Definition status_error (response : Response) (assertion : ExpressTestAssertion)
           (guard : value) (error : Err.t) : Err.t :=
  Err.set_actual (VNum (statusCode response))
    (Err.set_message
       (status_message (expected assertion) (statusCode response)
                       (Err.contextString error) +:+
        (if truthy guard then newline +:+ to_string guard else EmptyString))
       error).

(** The [TypeError] of [Object.keys] on [undefined] or [null]. *)
Definition keys_of_nothing : Err.t :=
  Err.TypeError "Cannot convert undefined or null to object".

(** The header line of the stack of a new [AssertionError]. *)
Definition stack_header : string := "AssertionError [ERR_ASSERTION]: ".

(** The bucket the descriptor of a registration call falls in. *)
Definition call_kind (call : Registration) : Kind :=
  match call with
  | CallExpect _ | CallMatchBodySnapshot _ => Body
  | CallExpectHeader _ _ | CallMatchHeaderSnapshot _ => Header
  | CallExpectStatus _ => Status
  end.

(** The positions in a chain of the calls whose method queues a
    descriptor of kind [k], in call order. *)
Definition call_positions (k : Kind) (registrations : list (string * Registration))
  : list nat :=
  filter (fun i => (fun c => call_kind c.2) <$> registrations !! i = Some k)
         (seq 0 (length registrations)).

(** ** More samples *)

(** A queue whose regular expressions keep no state between two calls of
    [test]: the header checks of such a queue do not influence one
    another, also when two of them hold the same [RegExp] object. *)
Definition stateless_value (v : value) : bool :=
  match v with
  | VRegExp pattern => stateless pattern
  | _ => true
  end.

Definition stateless_queue (queue : list ExpressTestAssertion) : Prop :=
  Forall (fun a => stateless_value (expectedValue a) = true) queue.

(** The calls that build [passing_queue]. *)
Definition sample_chain : list (string * Registration) :=
  [("    at test:1", CallExpectStatus (VNum 200));
   ("    at test:2", CallExpectHeader (VStr "Content-Type") (VRegExp json_pattern));
   ("    at test:3", CallMatchBodySnapshot (VObj [("title", VStr "Hello")]));
   ("    at test:4", CallExpect (Function passing_callback))].

(** A callback whose error has a plain message. *)
Definition failing_callback : Response -> option Err.t :=
  fun _ => Some (Err.Error "title is missing" "    at callback").

(** A 200 whose body is [{id: null}], one whose body is [null], one
    without headers and body, and one with a [content-length] header. *)
Definition null_id_response : Response :=
  mkResponse 200 (VObj []) (VObj [("id", VNull)]).

Definition null_body_response : Response :=
  mkResponse 200 (VObj []) VNull.

Definition bare_response : Response :=
  mkResponse 200 VUndefined VUndefined.

Definition sized_response : Response :=
  mkResponse 200 (VObj [("content-length", VStr "5")]) (VStr "Hello").

(** The descriptor of [expectStatus(200)] on the sample request. *)
Definition status_200 : ExpressTestAssertion :=
  mkAssertion FnAssertStatus (VStr "status")
              (registered_error "    at test:1" sample_request (VNum 200))
              (VNum 200) VUndefined VUndefined VUndefined VUndefined.

(** The body has a truthy [errors] whose element [0] is [undefined] or
    [null]. *)
Definition first_error_missing (response : Response) : bool :=
  truthy (body response) &&
  match get_prop (body response) "errors" with
  | Ok errors =>
      truthy errors &&
      match get_prop errors "0" with
      | Ok first => nullish first
      | Throw _ => false
      end
  | Throw _ => false
  end.

(** ** The scheduler *)

Lemma forEach_app {S A} (l1 l2 : list A) (f : A -> M S unit) (s : S) :
  forEach (l1 ++ l2) f s = (forEach l1 f ;; forEach l2 f) s.
Proof.
  revert s. induction l1 as [|x l1 IH]; intros s; simpl.
  - reflexivity.
  - unfold bind in *. destruct (f x s) as [[[]|e] s1]; [|reflexivity].
    apply IH.
Qed.

Lemma app_cons_snoc {A} (l : list A) (x : A) (k : list A) :
  l ++ x :: k = (l ++ [x]) ++ k.
Proof. rewrite <- app_assoc. reflexivity. Qed.

Lemma same_descriptors_refl q : same_descriptors q q.
Proof. apply Forall_Forall2_diag, Forall_forall. reflexivity. Qed.

Lemma same_descriptors_kind q0 q i a :
  same_descriptors q0 q -> q !! i = Some a ->
  exists a0, q0 !! i = Some a0 /\ type a0 = type a /\ kind_of a0 = kind_of a.
Proof.
  intros HF Hi. destruct (Forall2_lookup_r _ _ _ _ _ HF Hi) as (a0 & H0 & Heq).
  exists a0. split; [exact H0|].
  assert (type a0 = type a) as Ht.
  { change (type (set_error unassigned a0) = type (set_error unassigned a)).
    rewrite Heq. reflexivity. }
  split; [exact Ht|]. unfold kind_of. rewrite Ht. reflexivity.
Qed.

(** What one call does to the state. *)
Lemma invoke_spec response i st a :
  assertions (this st) !! i = Some a ->
  exists st',
    invoke response i st = ((call_fn response a (error a)).1, st') /\
    calls st' = calls st ++ [i] /\
    deliveries st' = deliveries st /\
    reqOptions (this st') = reqOptions (this st) /\
    (forall j, j <> i -> assertions (this st') !! j = assertions (this st) !! j) /\
    (forall q0, same_descriptors q0 (assertions (this st)) ->
                same_descriptors q0 (assertions (this st'))).
Proof.
  intros Hi. unfold invoke. rewrite Hi.
  destruct (call_fn response a (error a)) as [o e'] eqn:Hc. simpl.
  eexists. split; [reflexivity|]. simpl.
  repeat split; try reflexivity.
  - intros j Hj. apply list_lookup_insert_ne. congruence.
  - intros q0 HF. unfold same_descriptors in *.
    destruct (Forall2_lookup_r _ _ _ _ _ HF Hi) as (a0 & H0 & Heq).
    rewrite <- (list_insert_id q0 i a0 H0).
    apply Forall2_insert; [exact HF|]. rewrite Heq. reflexivity.
Qed.

(** A run over positions nobody has called yet does what the
    specification's fail-fast run over the original queue does. *)
Lemma forEach_invoke_run response q0 order :
  NoDup order ->
  forall st,
    (forall j, j ∈ order -> j < length q0) ->
    (forall j, j ∈ order -> assertions (this st) !! j = q0 !! j) ->
    exists st',
      forEach order (invoke response) st =
        ((fail_fast_run response q0 order).2, st') /\
      calls st' = calls st ++ (fail_fast_run response q0 order).1 /\
      deliveries st' = deliveries st /\
      reqOptions (this st') = reqOptions (this st) /\
      (forall j, j ∉ order -> assertions (this st') !! j = assertions (this st) !! j).
Proof.
  induction 1 as [|i rest Hni Hnd IH]; intros st Hlt Hsame; simpl.
  - exists st. rewrite app_nil_r. repeat split; reflexivity.
  - assert (i ∈ i :: rest) as Hin by apply list_elem_of_here.
    destruct (lookup_lt_is_Some_2 q0 i (Hlt i Hin)) as [a Ha].
    assert (assertions (this st) !! i = Some a) as Hi
      by (rewrite (Hsame i Hin); exact Ha).
    destruct (invoke_spec response i st a Hi)
      as (st1 & Hrun & Hcalls & Hdel & Hopt & Hother & _).
    unfold bind. rewrite Hrun. unfold check_outcome. rewrite Ha.
    destruct (call_fn response a (error a)).1 as [[]|e] eqn:Hout.
    + destruct (IH st1) as (st2 & Hrun2 & Hcalls2 & Hdel2 & Hopt2 & Hother2).
      { intros j Hj. apply Hlt. apply list_elem_of_further, Hj. }
      { intros j Hj. rewrite Hother.
        - apply Hsame. apply list_elem_of_further, Hj.
        - intros ->. contradiction. }
      exists st2. rewrite Hrun2.
      destruct (fail_fast_run response q0 rest) as [evaluated outcome]. simpl in *.
      split; [reflexivity|]. split; [rewrite Hcalls2, Hcalls, <- app_assoc; reflexivity|].
      split; [congruence|]. split; [congruence|].
      intros j Hj. rewrite not_elem_of_cons in Hj. destruct Hj as [Hji Hjr].
      rewrite Hother2 by exact Hjr. apply Hother. exact Hji.
    + exists st1. simpl. split; [reflexivity|]. split; [exact Hcalls|].
      split; [exact Hdel|]. split; [exact Hopt|].
      intros j Hj. rewrite not_elem_of_cons in Hj. apply Hother. apply Hj.
Qed.

(** The first loop followed by the other two is the three buckets run
    one after the other. *)
Lemma first_pass_buckets response q0 todo :
  forall statusCodeAssertions headerAssertions st,
    same_descriptors q0 (assertions (this st)) ->
    (buckets <- first_pass response todo statusCodeAssertions headerAssertions ;;
     let '(statusCodeAssertions, headerAssertions) := buckets in
     forEach headerAssertions (invoke response) ;;
     forEach statusCodeAssertions (invoke response)) st
    = (forEach (filter (fun i => kind_of <$> q0 !! i = Some Body) todo) (invoke response) ;;
       forEach (headerAssertions ++
                filter (fun i => kind_of <$> q0 !! i = Some Header) todo) (invoke response) ;;
       forEach (statusCodeAssertions ++
                filter (fun i => kind_of <$> q0 !! i = Some Status) todo) (invoke response)) st.
Proof.
  induction todo as [|i rest IH]; intros sca ha st Hsame.
  - simpl. rewrite !app_nil_r. reflexivity.
  - simpl first_pass. unfold bind at 1 2. unfold read at 1.
    destruct (assertions (this st) !! i) as [a|] eqn:Hi.
    + destruct (same_descriptors_kind _ _ _ _ Hsame Hi) as (a0 & H0 & Ht & Hk).
      rewrite !filter_cons. rewrite H0. simpl fmap. rewrite Hk.
      destruct (strict_eq_str (type a) "body") eqn:Hb.
      * assert (kind_of a = Body) as -> by (unfold kind_of; rewrite Hb; reflexivity).
        rewrite decide_True by reflexivity.
        rewrite decide_False by discriminate. rewrite decide_False by discriminate.
        simpl forEach.
        destruct (invoke_spec response i st a Hi)
          as (st1 & Hrun & _ & _ & _ & _ & Hkeep).
        unfold bind. rewrite Hrun.
        destruct (call_fn response a (error a)).1 as [[]|e]; [|reflexivity].
        apply (IH sca ha st1). apply Hkeep, Hsame.
      * destruct (strict_eq_str (type a) "status") eqn:Hs.
        -- assert (kind_of a = Status) as ->
             by (unfold kind_of; rewrite Hb, Hs; reflexivity).
           rewrite decide_False by discriminate. rewrite decide_False by discriminate.
           rewrite decide_True by reflexivity.
           rewrite (app_cons_snoc sca i
                      (filter (fun i => kind_of <$> q0 !! i = Some Status) rest)).
           apply (IH (sca ++ [i]) ha st Hsame).
        -- assert (kind_of a = Header) as ->
             by (unfold kind_of; rewrite Hb, Hs; reflexivity).
           rewrite decide_False by discriminate. rewrite decide_True by reflexivity.
           rewrite decide_False by discriminate.
           assert (forall sca' ha', (if strict_eq_str (type a) "header"
                    then first_pass response rest sca' (ha' ++ [i])
                    else first_pass response rest sca' (ha' ++ [i]))
                   = first_pass response rest sca' (ha' ++ [i])) as Hif
             by (intros; destruct (strict_eq_str (type a) "header"); reflexivity).
           rewrite Hif.
           rewrite (app_cons_snoc ha i
                      (filter (fun i => kind_of <$> q0 !! i = Some Header) rest)).
           apply (IH sca (ha ++ [i]) st Hsame).
    + assert (q0 !! i = None) as H0.
      { apply lookup_ge_None. apply lookup_ge_None in Hi.
        rewrite (Forall2_length _ _ _ Hsame). exact Hi. }
      rewrite !filter_cons. rewrite H0. simpl fmap.
      rewrite !decide_False by discriminate.
      apply (IH sca ha st Hsame).
Qed.

Lemma assertAll_scheduled response st :
  _assertAll response st =
    forEach (scheduled_order (assertions (this st))) (invoke response) st.
Proof.
  unfold _assertAll. unfold bind at 1. unfold read at 1.
  rewrite (first_pass_buckets response (assertions (this st)) _ [] [] st
             (same_descriptors_refl _)).
  unfold scheduled_order, positions_of. simpl app.
  rewrite forEach_app. unfold bind at 3. unfold bind at 1.
  destruct (forEach _ (invoke response) st) as [[[]|e] st1]; [|reflexivity].
  rewrite forEach_app. reflexivity.
Qed.

Lemma positions_of_spec k queue i :
  i ∈ positions_of k queue <-> kind_of <$> queue !! i = Some k.
Proof.
  unfold positions_of. rewrite list_elem_of_filter, elem_of_seq. split.
  - intros [H _]. exact H.
  - intros H. split; [exact H|]. split; [lia|].
    destruct (queue !! i) as [a|] eqn:Hi; [|discriminate].
    apply lookup_lt_Some in Hi. simpl. exact Hi.
Qed.

Lemma positions_of_NoDup k queue : NoDup (positions_of k queue).
Proof. apply NoDup_filter, NoDup_seq. Qed.

Lemma scheduled_order_NoDup queue : NoDup (scheduled_order queue).
Proof.
  unfold scheduled_order. rewrite !NoDup_app.
  repeat split; try apply positions_of_NoDup.
  - intros i Hb Hrest. rewrite positions_of_spec in Hb.
    rewrite elem_of_app, !positions_of_spec in Hrest.
    destruct Hrest as [H|H]; rewrite Hb in H; discriminate.
  - intros i Hh Hs. rewrite positions_of_spec in Hh, Hs.
    rewrite Hh in Hs. discriminate.
Qed.

Lemma scheduled_order_lt queue i : i ∈ scheduled_order queue -> i < length queue.
Proof.
  unfold scheduled_order. rewrite !elem_of_app, !positions_of_spec.
  intros H. destruct (queue !! i) as [a|] eqn:Hi.
  - apply lookup_lt_Some in Hi. exact Hi.
  - destruct H as [H|[H|H]]; discriminate.
Qed.

Lemma fail_fast_run_prefix response queue order :
  (fail_fast_run response queue order).1 `prefix_of` order /\
  (is_ok (fail_fast_run response queue order).2 = true ->
   (fail_fast_run response queue order).1 = order).
Proof.
  induction order as [|i rest [IHp IHo]]; simpl.
  - split; [apply prefix_nil|reflexivity].
  - destruct (check_outcome response queue i) as [[]|e].
    + destruct (fail_fast_run response queue rest) as [evaluated outcome]. simpl in *.
      split; [apply prefix_cons, IHp|]. intros H. rewrite (IHo H). reflexivity.
    + simpl. split; [|discriminate]. exists rest. reflexivity.
Qed.

Lemma fail_fast_run_stops response queue before i after e :
  forallb (fun j => is_ok (check_outcome response queue j)) before = true ->
  check_outcome response queue i = Throw e ->
  fail_fast_run response queue (before ++ i :: after) = (before ++ [i], Throw e).
Proof.
  intros Hbefore Hi. induction before as [|j before IH]; simpl.
  - rewrite Hi. reflexivity.
  - simpl in Hbefore. apply andb_true_iff in Hbefore. destruct Hbefore as [Hj Hrest].
    destruct (check_outcome response queue j) as [[]|e']; [|discriminate].
    rewrite (IH Hrest). reflexivity.
Qed.

(** The scheduler is the specification's fail-fast run over the
    scheduled order. *)
Lemma assertAll_run response st :
  exists st',
    _assertAll response st =
      ((fail_fast_run response (assertions (this st))
                      (scheduled_order (assertions (this st)))).2, st') /\
    calls st' =
      calls st ++ (fail_fast_run response (assertions (this st))
                                 (scheduled_order (assertions (this st)))).1 /\
    deliveries st' = deliveries st /\
    reqOptions (this st') = reqOptions (this st).
Proof.
  rewrite assertAll_scheduled.
  destruct (forEach_invoke_run response (assertions (this st))
              (scheduled_order (assertions (this st)))
              (scheduled_order_NoDup _) st)
    as (st' & Hrun & Hcalls & Hdel & Hopt & _).
  - intros j. apply scheduled_order_lt.
  - reflexivity.
  - exists st'. repeat split; assumption.
Qed.

(** C1. Whatever the queue and the response, the calls [_assertAll]
    makes are, in this order, the descriptors of kind body in
    registration order, then those of kind header (any kind that is not
    recognised or not there included), then those of kind status: the
    log of calls is a prefix of that order, all of it when no check
    throws. Each bucket holds exactly the positions of its kind, as a
    subsequence of the positions [0, 1, ...] of the queue. *)
Theorem assertAll_three_bucket_order response st :
  let queue := assertions (this st) in
  let order :=
    positions_of Body queue ++ positions_of Header queue ++ positions_of Status queue in
  (exists evaluated,
     calls (_assertAll response st).2 = calls st ++ evaluated /\
     evaluated `prefix_of` order /\
     (is_ok (_assertAll response st).1 = true -> evaluated = order)) /\
  (forall k i, i ∈ positions_of k queue <-> kind_of <$> queue !! i = Some k) /\
  (forall k, positions_of k queue `sublist_of` seq 0 (length queue)).
Proof.
  cbv zeta. split; [|split].
  - destruct (assertAll_run response st) as (st' & Hrun & Hcalls & _).
    unfold scheduled_order in Hrun, Hcalls.
    eexists. rewrite Hrun. simpl. split; [exact Hcalls|].
    apply fail_fast_run_prefix.
  - intros k i. apply positions_of_spec.
  - intros k. apply sublist_filter.
Qed.

(** C2. Once the check of a descriptor throws, no descriptor after it in
    the scheduled order is called, and that first failure is what
    [_assertAll] throws and what [finalize] hands to the callback. *)
Theorem assertAll_fail_fast response st before i after e :
  scheduled_order (assertions (this st)) = before ++ i :: after ->
  forallb (fun j => is_ok (check_outcome response (assertions (this st)) j)) before = true ->
  check_outcome response (assertions (this st)) i = Throw e ->
  exists st',
    _assertAll response st = (Throw e, st') /\
    calls st' = calls st ++ before ++ [i] /\
    (forall j, j ∈ after -> j ∉ before ++ [i]) /\
    forall callback,
      exists st'',
        finalize callback (Responded response) st =
          (callback_result callback (mkDelivery (Some e) None), st'') /\
        calls st'' = calls st' /\
        deliveries st'' = deliveries st ++ [mkDelivery (Some e) None].
Proof.
  intros Horder Hbefore Hi.
  destruct (assertAll_run response st) as (st' & Hrun & Hcalls & Hdel & _).
  rewrite Horder, (fail_fast_run_stops _ _ _ _ _ _ Hbefore Hi) in Hrun, Hcalls.
  simpl in Hrun, Hcalls.
  exists st'. split; [exact Hrun|]. split; [exact Hcalls|]. split.
  - intros j Hj Hin. pose proof (scheduled_order_NoDup (assertions (this st))) as Hnd.
    rewrite Horder, (app_cons_snoc before i after), NoDup_app in Hnd.
    destruct Hnd as (_ & Hdisj & _). exact (Hdisj j Hin Hj).
  - intros callback. unfold finalize, try_catch, bind, read, when.
    assert (length (assertions (this st)) <> 0) as Hne.
    { intros H0. apply nil_length_inv in H0.
      rewrite H0 in Horder. destruct before; discriminate. }
    apply Nat.eqb_neq in Hne. rewrite Hne. cbv beta iota delta [negb].
    rewrite Hrun. unfold call_callback, callback_result. simpl.
    eexists. split; [reflexivity|]. simpl. rewrite Hdel. split; reflexivity.
Qed.

(** ** The finalizer *)

(** C4. When the transport reports an error, [finalize] hands that very
    error to the callback, calls no check and leaves the request as it
    was. *)
Theorem finalize_transport_error callback error st :
  exists st',
    finalize callback (Failed error) st =
      (callback_result callback (mkDelivery (Some error) None), st') /\
    deliveries st' = deliveries st ++ [mkDelivery (Some error) None] /\
    calls st' = calls st /\
    this st' = this st.
Proof.
  unfold finalize, call_callback, callback_result.
  eexists. split; [reflexivity|]. simpl. repeat split; reflexivity.
Qed.

(** C3. Whatever the transport outcome, the queue, the results of the
    checks and the callback do, every call [finalize] makes of the
    callback carries exactly one of an error and a response, there is at
    least one call, at most one of them carries an error, and a callback
    that returns normally is called exactly once. *)
Theorem finalize_error_xor_response callback outcome st :
  exists ds,
    deliveries (finalize callback outcome st).2 = deliveries st ++ ds /\
    ds <> [] /\
    Forall exactly_one_of ds /\
    length (List.filter carries_error ds) <= 1 /\
    ((forall d, callback d = None) -> length ds = 1).
Proof.
  destruct outcome as [error|response].
  - exists [mkDelivery (Some error) None]. simpl.
    split; [reflexivity|]. split; [discriminate|].
    split; [repeat constructor|]. split; [lia|reflexivity].
  - unfold finalize, try_catch, bind, read, when.
    destruct (assertAll_run response st) as (st1 & Hrun & _ & Hdel & _).
    assert (forall s, deliveries s = deliveries st ->
              exists ds,
                deliveries
                  (let (r, s') := call_callback callback (mkDelivery None (Some response)) s in
                   match r with
                   | Ok a => (Ok a, s')
                   | Throw e => call_callback callback (mkDelivery (Some e) None) s'
                   end).2 = deliveries st ++ ds /\
                ds <> [] /\ Forall exactly_one_of ds /\
                length (List.filter carries_error ds) <= 1 /\
                ((forall d, callback d = None) -> length ds = 1)) as Hok.
    { intros s Hs. unfold call_callback.
      destruct (callback (mkDelivery None (Some response))) as [thrown|] eqn:Hcb.
      - exists [mkDelivery None (Some response); mkDelivery (Some thrown) None].
        simpl. rewrite Hs, <- app_assoc.
        split; [reflexivity|]. split; [discriminate|].
        split; [repeat constructor|]. split; [lia|].
        intros Hquiet. rewrite Hquiet in Hcb. discriminate.
      - exists [mkDelivery None (Some response)]. simpl. rewrite Hs.
        split; [reflexivity|]. split; [discriminate|].
        split; [repeat constructor|]. split; [lia|reflexivity]. }
    destruct (negb (Nat.eqb (length (assertions (this st))) 0)).
    + cbv beta iota. rewrite Hrun.
      destruct (fail_fast_run response (assertions (this st))
                  (scheduled_order (assertions (this st)))).2 as [[]|e].
      * apply (Hok st1 Hdel).
      * exists [mkDelivery (Some e) None]. unfold call_callback. simpl. rewrite Hdel.
        split; [reflexivity|]. split; [discriminate|].
        split; [repeat constructor|]. split; [lia|reflexivity].
    + apply (Hok st eq_refl).
Qed.

(** ** Registration *)

(** C8. [expect] with an argument that is not callable throws the misuse
    error on the spot and leaves the queue as it was; with a callable
    argument it appends exactly one descriptor and returns the request
    itself, as the other four registration operations do. *)
Theorem expect_requires_function site this :
  (forall v,
     expect site (NotFunction v) this = (Throw (Err.Error misuse_message site), this)) /\
  (forall f,
     let d := mkAssertion (FnWrapper f) (VStr "body")
                          (registered_error site this VUndefined)
                          VUndefined VUndefined VUndefined VUndefined VUndefined in
     expect site (Function f) this = (Ok (with_descriptor this d), with_descriptor this d)) /\
  (forall expected,
     let d := mkAssertion FnAssertStatus (VStr "status")
                          (registered_error site this expected)
                          expected VUndefined VUndefined VUndefined VUndefined in
     expectStatus site expected this = (Ok (with_descriptor this d), with_descriptor this d)) /\
  (forall expectedField expectedValue,
     let d := mkAssertion FnAssertHeader (VStr "header")
                          (registered_error site this VUndefined)
                          VUndefined expectedValue (VStr (toLowerCase expectedField))
                          VUndefined VUndefined in
     expectHeader site (VStr expectedField) expectedValue this =
       (Ok (with_descriptor this d), with_descriptor this d)) /\
  (forall properties,
     let d := mkAssertion FnAssertSnapshot (VStr "body")
                          (registered_error site this VUndefined)
                          VUndefined VUndefined VUndefined
                          (default_properties properties) (VStr "body") in
     matchBodySnapshot site properties this =
       (Ok (with_descriptor this d), with_descriptor this d)) /\
  (forall properties,
     let d := mkAssertion FnAssertSnapshot (VStr "header")
                          (registered_error site this VUndefined)
                          VUndefined VUndefined VUndefined
                          (default_properties properties) (VStr "headers") in
     matchHeaderSnapshot site properties this =
       (Ok (with_descriptor this d), with_descriptor this d)).
Proof.
  split; [intros v; reflexivity|].
  split; [intros f; reflexivity|].
  split; [intros expected; reflexivity|].
  split; [intros expectedField expectedValue; reflexivity|].
  split; intros properties; reflexivity.
Qed.

(** ** The header check *)

Lemma string_app_assoc (a b c : string) : (a +:+ b) +:+ c = a +:+ (b +:+ c).
Proof.
  induction a as [|x a IH]; [reflexivity|].
  change (String x ((a +:+ b) +:+ c) = String x (a +:+ (b +:+ c))).
  f_equal. exact IH.
Qed.

Lemma string_app_empty_r (a : string) : a +:+ EmptyString = a.
Proof.
  induction a as [|x a IH]; [reflexivity|].
  change (String x (a +:+ EmptyString) = String x a). f_equal. exact IH.
Qed.





(** A name the headers object does not own but its prototype holds reads
    as the inherited member, which is not [undefined]: the check treats
    it as a header value, and against a literal of another text it
    throws the mismatch message, not the "to exist" one. *)
Lemma assertHeader_inherited_name site this field s response props text :
  let a := header_descriptor site this field (VStr s) in
  let name := toLowerCase field in
  headers response = VObj props ->
  find_prop name props = None ->
  prototype_member (headers response) name = Some text ->
  s <> text ->
  exists e,
    _assertHeader response a (error a) = (Throw e, e) /\
    Err.message e =
      literal_mismatch_message name (VStr s) (VNative text) (toString (reqOptions this)).
Proof.
  cbv zeta. intros Hh Hown Hproto Hne.
  assert (get_prop (headers response) (toLowerCase field) = Ok (VNative text)) as Hget.
  { rewrite Hh. simpl. rewrite Hown. unfold inherited. rewrite <- Hh, Hproto.
    reflexivity. }
  unfold _assertHeader, bind, lift. simpl. rewrite Hget. simpl.
  unfold modify, fail_unless. simpl.
  destruct (String.eqb_spec (toLowerCase field +:+ ": " +:+ s)
                            (toLowerCase field +:+ ": " +:+ text)) as [Heq|_]; simpl.
  - exfalso. apply Hne.
    apply (inj (String.app _)) in Heq. apply (inj (String.app _)) in Heq. exact Heq.
  - eexists. split; reflexivity.
Qed.

(** ** The snapshot check *)

Lemma get_prop_defined v k : nullish v = false -> exists x, get_prop v k = Ok x.
Proof.
  destruct v; simpl; try discriminate; intros _; try (eexists; reflexivity).
  - destruct (String.eqb k "length"); [eexists; reflexivity|].
    destruct (is_array_index k); [|eexists; reflexivity].
    destruct (index_of_key k (String.length s)); eexists; reflexivity.
  - destruct (String.eqb k "length"); [eexists; reflexivity|].
    destruct (is_array_index k); [|eexists; reflexivity].
    destruct (index_of_key k (length items)); eexists; reflexivity.
  - destruct (find_prop k props); eexists; reflexivity.
Qed.

(** A named property the target does not own but its prototype holds
    reads as the inherited member: it is there for the snapshot check. *)
Lemma get_prop_inherited props k text :
  find_prop k props = None ->
  prototype_member (VObj props) k = Some text ->
  get_prop (VObj props) k = Ok (VNative text) /\ nullish (VNative text) = false.
Proof.
  intros Hown Hproto. simpl. rewrite Hown. unfold inherited. rewrite Hproto.
  split; reflexivity.
Qed.

(** The loop over the named properties stops at the first one the
    target lacks, whatever the Snapshot Matcher found. *)
Lemma forEach_property_missing (m : Match.t) (field target : value) keys :
  nullish target = false ->
  (exists prop x, prop ∈ keys /\ get_prop target prop = Ok x /\ nullish x = true) ->
  forall error,
  exists e missing x,
    forEach keys (fun prop =>
      let errorMessage :=
        dquote +:+ "response." +:+ to_string field +:+ dquote +:+
        " is missing the expected property " +:+ dquote +:+ prop +:+ dquote in
      modify (Err.set_message
                (makeMessageFromMatchMessage (Match.message m) errorMessage)) ;;
      modify (Err.set_expected (VStr prop)) ;;
      modify (Err.set_actual (VStr "undefined")) ;;
      modify (Err.set_showDiff (VBool false)) ;;
      found <- lift (get_prop target prop) ;;
      fail_unless (negb (nullish found))) error = (Throw e, e) /\
    missing ∈ keys /\
    get_prop target missing = Ok x /\ nullish x = true /\
    Err.message e =
      makeMessageFromMatchMessage (Match.message m)
                                  (missing_property_message field missing) /\
    Err.expected e = VStr missing /\
    Err.showDiff e = VBool false.
Proof.
  intros Htarget. induction keys as [|k keys IH]; intros (prop & x & Hin & Hget & Hnull) error.
  - apply elem_of_nil in Hin. contradiction.
  - simpl forEach. unfold bind, modify, lift, fail_unless. simpl.
    destruct (get_prop_defined target k Htarget) as [y Hy]. rewrite Hy.
    destruct (nullish y) eqn:Hny; simpl.
    + eexists. exists k, y. split; [reflexivity|]. simpl.
      split; [apply list_elem_of_here|]. repeat split; assumption.
    + apply elem_of_cons in Hin. destruct Hin as [->|Hin].
      * rewrite Hget in Hy. injection Hy as ->. congruence.
      * destruct (IH (ex_intro _ prop (ex_intro _ x (conj Hin (conj Hget Hnull))))
                     (Err.set_showDiff (VBool false)
                        (Err.set_actual (VStr "undefined")
                           (Err.set_expected (VStr k)
                              (Err.set_message
                                 (makeMessageFromMatchMessage (Match.message m)
                                    (dquote +:+ "response." +:+ to_string field +:+
                                     dquote +:+ " is missing the expected property " +:+
                                     dquote +:+ k +:+ dquote)) error)))))
          as (e & missing & z & Hrun & Hmem & Hz & Hnz & Hmsg & Hexp & Hshow).
        exists e, missing, z. split; [exact Hrun|].
        split; [apply list_elem_of_further, Hmem|]. repeat split; assumption.
Qed.

(** C7. A snapshot check fails when the response field it targets is
    absent, and it fails when a property named in the mapping is absent
    from the value of that field, whatever the Snapshot Matcher answers:
    the error thrown names a missing property. Absent is what the member
    access of the check reads as [undefined]: the value has no property
    of the name and inherits none. This holds of the descriptors of
    [matchBodySnapshot] and of [matchHeaderSnapshot]. *)
Theorem snapshot_check_missing site this properties response a :
  a = body_snapshot_descriptor site this properties \/
  a = header_snapshot_descriptor site this properties ->
  let target := response_prop response (to_string (field a)) in
  let run := _assertSnapshot response a (error a) in
  (target = VUndefined ->
   exists e,
     run = (Throw e, e) /\
     Err.message e = undefined_field_message (field a) (toString (reqOptions this))) /\
  (forall props prop,
     properties = VObj props ->
     prop ∈ map fst props ->
     nullish target = false ->
     get_prop target prop = Ok VUndefined ->
     exists e missing,
       run = (Throw e, e) /\
       missing ∈ map fst props /\
       Err.message e =
         makeMessageFromMatchMessage
           (Match.message
              (snapshotManager_match target properties
                                     ("[" +:+ to_string (field a) +:+ "]")))
           (missing_property_message (field a) missing) /\
       Err.expected e = VStr missing /\
       Err.showDiff e = VBool false).
Proof.
  intros Ha. cbv zeta. split.
  - intros Habsent. unfold _assertSnapshot.
    destruct Ha as [-> | ->]; simpl in *; rewrite Habsent;
      unfold bind, when, modify, read, fail_unless; simpl;
      eexists; split; reflexivity.
  - intros props prop -> Hin Htarget Hget.
    assert (exists prop x, prop ∈ map fst props /\
                           get_prop (response_prop response (to_string (field a))) prop = Ok x /\
                           nullish x = true) as Hmissing
      by (exists prop, VUndefined; repeat split; assumption).
    assert (properties a = VObj props /\
            Err.contextString (error a) = toString (reqOptions this)) as [Hprops Hctx]
      by (destruct Ha as [-> | ->]; split; reflexivity).
    unfold _assertSnapshot. rewrite Hprops.
    set (target := response_prop response (to_string (field a))) in *.
    set (m := snapshotManager_match target (VObj props) ("[" +:+ to_string (field a) +:+ "]")).
    assert (forall error0,
              exists e missing,
                (keys <- lift (Object_keys (VObj props)) ;;
                 forEach keys (fun prop =>
                   let errorMessage :=
                     dquote +:+ "response." +:+ to_string (field a) +:+ dquote +:+
                     " is missing the expected property " +:+ dquote +:+ prop +:+ dquote in
                   modify (Err.set_message
                             (makeMessageFromMatchMessage (Match.message m) errorMessage)) ;;
                   modify (Err.set_expected (VStr prop)) ;;
                   modify (Err.set_actual (VStr "undefined")) ;;
                   modify (Err.set_showDiff (VBool false)) ;;
                   found <- lift (get_prop target prop) ;;
                   fail_unless (negb (nullish found))) ;;
                 when (negb (Match.pass m))
                      (let errorMessage :=
                         dquote +:+ "response." +:+ to_string (field a) +:+ dquote +:+
                         " does not match snapshot." in
                       modify (Err.set_message
                                 (makeMessageFromMatchMessage (Match.message m) errorMessage)) ;;
                       modify (Err.set_expected (Match.expected m)) ;;
                       modify (Err.set_actual (Match.actual m)) ;;
                       modify (Err.set_showDiff (VBool false))) ;;
                 fail_unless (Match.pass m)) error0 = (Throw e, e) /\
                missing ∈ map fst props /\
                Err.message e =
                  makeMessageFromMatchMessage (Match.message m)
                    (missing_property_message (field a) missing) /\
                Err.expected e = VStr missing /\
                Err.showDiff e = VBool false) as Hloop.
    { intros error0.
      pose proof (forEach_property_missing m (field a) target (map fst props)
                    Htarget Hmissing error0) as Hfirst.
      unfold bind, lift in Hfirst |- *. simpl Object_keys. cbv iota beta.
      destruct Hfirst as (e & missing & z & Hrun & Hmem & _ & _ & Hmsg & Hexp & Hshow).
      rewrite Hrun.
      exists e, missing. repeat split; assumption. }
    unfold bind at 1. unfold when at 1.
    destruct (negb (truthy target)).
    + unfold bind at 1. unfold read at 1. unfold bind at 1. unfold modify at 1.
      unfold bind at 1. unfold modify at 1. unfold bind at 1. unfold modify at 1.
      unfold fail_unless at 1. rewrite Htarget. simpl negb. cbv iota beta.
      apply Hloop.
    + unfold ret. cbv iota beta. apply Hloop.
Qed.

(** ** The status check *)

Lemma first_error_message_pure response error :
  first_error_message response error =
    ((first_error_message response error).1, error).
Proof.
  unfold first_error_message, bind, lift.
  destruct (get_prop (body response) "errors") as [errors|]; [|reflexivity].
  destruct (get_prop errors "0") as [first|]; [|reflexivity].
  reflexivity.
Qed.

Lemma first_error_message_state response error error' :
  (first_error_message response error').1 = (first_error_message response error).1.
Proof.
  unfold first_error_message, bind, lift.
  destruct (get_prop (body response) "errors") as [errors|]; [|reflexivity].
  destruct (get_prop errors "0") as [first|]; reflexivity.
Qed.

(** C10. Against a body whose [errors] is an empty list, the status
    check throws the [TypeError] of reading [message] off [undefined],
    whether or not the status codes agree, and not the assertion
    failure it had prepared on the descriptor's error. *)
Theorem assertStatus_empty_errors response assertion error :
  get_prop (body response) "errors" = Ok (VArr []) ->
  exists prepared,
    _assertStatus response assertion error = (Throw message_of_undefined, prepared) /\
    Err.message prepared =
      status_message (expected assertion) (statusCode response) (Err.contextString error) /\
    message_of_undefined <> prepared.
Proof.
  intros Herrors.
  assert (truthy (body response) = true) as Hbody.
  { assert (forall v k, Ok (inherited v k) <> Ok (VArr [])) as Hinherited.
    { intros v k. unfold inherited. destruct (prototype_member v k); discriminate. }
    destruct (body response) as [| | b | n | s | r | items | props | text];
      simpl in Herrors; try discriminate Herrors; try reflexivity;
      exfalso; exact (Hinherited _ _ Herrors). }
  unfold _assertStatus, error_detail_guard, js_and, first_error_message,
    bind, read, modify, lift, ret. simpl.
  rewrite Hbody, Herrors. simpl.
  eexists. split; [reflexivity|]. split; [reflexivity|].
  intros H. apply (f_equal Err.message) in H. discriminate H.
Qed.

(** The status check where the guard itself does not throw: on a
    mismatch the prepared error is thrown, its message holds both codes
    and, when the body has a first error with a message, that message
    too. *)
Lemma assertStatus_mismatch_message response assertion error guard :
  (error_detail_guard response error).1 = Ok guard ->
  loose_eq_num (statusCode response) (expected assertion) = false ->
  exists e,
    _assertStatus response assertion error = (Throw e, e) /\
    contains (Err.message e) (to_string (expected assertion)) /\
    contains (Err.message e) (pretty (statusCode response)) /\
    (truthy guard = true -> contains (Err.message e) (to_string guard)).
Proof.
  intros Hguard Hne.
  unfold _assertStatus. unfold bind at 1. unfold read at 1. cbv iota beta.
  unfold bind at 1. unfold modify at 1. cbv iota beta.
  set (message0 := "Expected statusCode " +:+ to_string (expected assertion) +:+
                   ", got statusCode " +:+ pretty (statusCode response) +:+
                   " " +:+ Err.contextString error).
  set (error0 := Err.set_message message0 error).
  assert (error_detail_guard response error0 = (Ok guard, error0)) as Hrun.
  { revert Hguard. unfold error_detail_guard, js_and, bind, ret, lift.
    destruct (truthy (body response)); [|simpl; intros ->; reflexivity].
    destruct (get_prop (body response) "errors") as [errors|]; [|discriminate].
    destruct (truthy errors); [|simpl; intros ->; reflexivity].
    rewrite (first_error_message_pure response error),
            (first_error_message_pure response error0),
            (first_error_message_state response error error0).
    simpl. intros ->. reflexivity. }
  unfold bind at 1. rewrite Hrun. cbv iota beta.
  destruct (truthy guard) eqn:Htruthy.
  - assert (first_error_message response error0 = (Ok guard, error0)) as Hdetail.
    { revert Hrun Htruthy. unfold error_detail_guard, js_and, bind, ret, lift.
      destruct (truthy (body response)) eqn:Hb;
        [|intros [= <-]; rewrite Hb; discriminate].
      destruct (get_prop (body response) "errors") as [errors|]; [|discriminate].
      destruct (truthy errors) eqn:He; [|intros [= <-]; rewrite He; discriminate].
      rewrite (first_error_message_pure response error0).
      destruct (first_error_message response error0).1; [|discriminate].
      intros [= ->] _. reflexivity. }
    unfold when, bind, modify, fail_unless. rewrite Hdetail. cbv iota beta.
    rewrite Hne. eexists. split; [reflexivity|]. simpl.
    split; [|split].
    + exists "Expected statusCode ",
        (", got statusCode " +:+ pretty (statusCode response) +:+ " " +:+
         Err.contextString error +:+ newline +:+ to_string guard).
      unfold message0. rewrite !string_app_assoc. reflexivity.
    + exists ("Expected statusCode " +:+ to_string (expected assertion) +:+
              ", got statusCode "),
        (" " +:+ Err.contextString error +:+ newline +:+ to_string guard).
      unfold message0. rewrite !string_app_assoc. reflexivity.
    + intros _. exists (message0 +:+ newline), EmptyString.
      rewrite string_app_empty_r, string_app_assoc. reflexivity.
  - unfold when, bind, ret, modify, fail_unless. cbv iota beta.
    rewrite Hne. eexists. split; [reflexivity|]. simpl.
    split; [|split; [|discriminate]].
    + exists "Expected statusCode ",
        (", got statusCode " +:+ pretty (statusCode response) +:+ " " +:+
         Err.contextString error).
      reflexivity.
    + exists ("Expected statusCode " +:+ to_string (expected assertion) +:+
              ", got statusCode "), (" " +:+ Err.contextString error).
      unfold message0. rewrite !string_app_assoc. reflexivity.
Qed.

(** C6. Where the claim breaks: the status check of [expectStatus(200)]
    against a 404 whose body is [{errors: []}] throws the [TypeError] in
    place of the prepared failure, and the message of what it throws
    holds neither code. The message with both codes was written on the
    descriptor's error, which is not thrown. *)
Theorem assertStatus_empty_errors_loses_codes :
  exists a prepared,
    assertions status_queue = [a] /\
    call_fn empty_errors_response a (error a) = (Throw message_of_undefined, prepared) /\
    occurs "200" (Err.message message_of_undefined) = false /\
    occurs "404" (Err.message message_of_undefined) = false /\
    Err.message prepared = "Expected statusCode 200, got statusCode 404 GET /api/posts".
Proof.
  eexists. eexists. split; [reflexivity|]. split; [reflexivity|].
  repeat split; reflexivity.
Qed.

(** ** The callback check *)

Lemma string_prefix_app (s after : string) : String.prefix s (s +:+ after) = true.
Proof.
  induction s as [|c s IH]; simpl.
  - destruct after; reflexivity.
  - destruct (ascii_dec c c) as [_|Hne]; [exact IH|contradiction].
Qed.

(** [occurs] decides [contains]. *)
Lemma contains_occurs t s : contains t s -> occurs s t = true.
Proof.
  intros (before & after & ->). unfold occurs.
  induction before as [|c before IH].
  - change (EmptyString +:+ s +:+ after) with (s +:+ after).
    destruct (s +:+ after) as [|d rest] eqn:Heq.
    + change (split_first s EmptyString)
        with (if String.prefix s EmptyString
              then Some (EmptyString, drop_chars (String.length s) EmptyString)
              else None).
      rewrite <- Heq at 1. rewrite string_prefix_app. reflexivity.
    + change (split_first s (String d rest))
        with (if String.prefix s (String d rest)
              then Some (EmptyString, drop_chars (String.length s) (String d rest))
              else match split_first s rest with
                   | Some (before, after) => Some (String d before, after)
                   | None => None
                   end).
      rewrite <- Heq at 1. rewrite string_prefix_app. reflexivity.
  - change (String c before +:+ s +:+ after) with (String c (before +:+ s +:+ after)).
    change (split_first s (String c (before +:+ s +:+ after)))
      with (if String.prefix s (String c (before +:+ s +:+ after))
            then Some (EmptyString,
                       drop_chars (String.length s) (String c (before +:+ s +:+ after)))
            else match split_first s (before +:+ s +:+ after) with
                 | Some (b, a) => Some (String c b, a)
                 | None => None
                 end).
    destruct (String.prefix s (String c (before +:+ s +:+ after))); [reflexivity|].
    destruct (split_first s (before +:+ s +:+ after)) as [[b a]|];
      [reflexivity|discriminate].
Qed.

Lemma prefix_split pat s :
  String.prefix pat s = true -> s = pat +:+ drop_chars (String.length pat) s.
Proof.
  revert s. induction pat as [|c pat IH]; intros s; [reflexivity|].
  destruct s as [|d s]; simpl; [discriminate|].
  destruct (ascii_dec c d) as [->|]; [|discriminate].
  intros H.
  change (String d s = String d (pat +:+ drop_chars (String.length pat) s)).
  f_equal. apply IH, H.
Qed.

Lemma split_first_sound pat s before after :
  split_first pat s = Some (before, after) -> s = before +:+ pat +:+ after.
Proof.
  revert before. induction s as [|c s IH]; intros before.
  - change (split_first pat EmptyString)
      with (if String.prefix pat EmptyString
            then Some (EmptyString, drop_chars (String.length pat) EmptyString)
            else None).
    destruct (String.prefix pat EmptyString) eqn:Hp; [|discriminate].
    intros [= <- <-]. apply (prefix_split _ _ Hp).
  - change (split_first pat (String c s))
      with (if String.prefix pat (String c s)
            then Some (EmptyString, drop_chars (String.length pat) (String c s))
            else match split_first pat s with
                 | Some (before, after) => Some (String c before, after)
                 | None => None
                 end).
    destruct (String.prefix pat (String c s)) eqn:Hp.
    + intros [= <- <-]. apply (prefix_split _ _ Hp).
    + destruct (split_first pat s) as [[b a]|]; [|discriminate].
      intros [= <- <-].
      change (String c s = String c (b +:+ pat +:+ a)).
      f_equal. apply IH. reflexivity.
Qed.

Lemma get_substitution_other matched before after c rest :
  Ascii.eqb c "$" = false ->
  get_substitution matched before after (String c rest) =
    String c (get_substitution matched before after rest).
Proof.
  destruct c as [[] [] [] [] [] [] [] []]; intros H; try discriminate H; reflexivity.
Qed.

Lemma get_substitution_dollar_free matched before after template :
  dollar_free template = true ->
  get_substitution matched before after template = template.
Proof.
  induction template as [|c rest IH]; [reflexivity|].
  simpl dollar_free. intros H. apply andb_true_iff in H. destruct H as [Hc Hrest].
  apply negb_true_iff in Hc.
  rewrite (get_substitution_other _ _ _ _ _ Hc), (IH Hrest). reflexivity.
Qed.

(** Without a dollar sign in the new message, [replace] is the splice
    of the specification. *)
Lemma js_replace_dollar_free s pat replacement :
  dollar_free replacement = true ->
  js_replace s pat replacement = literal_splice s pat replacement.
Proof.
  intros H. unfold js_replace, literal_splice.
  destruct (split_first pat s) as [[before after]|]; [|reflexivity].
  rewrite (get_substitution_dollar_free _ _ _ _ H). reflexivity.
Qed.

(** What the closure of [expect] does with an error of the callback. *)
Lemma wrapperFn_rethrows callback response assertion own error :
  callback response = Some error ->
  wrapperFn callback response assertion own =
    (Throw (Err.set_stack
              (js_replace (Err.stack own) (Err.message own) (Err.message error)) error),
     own).
Proof. intros H. unfold wrapperFn. rewrite H. reflexivity. Qed.

Lemma wrapperFn_splices callback response assertion own error :
  callback response = Some error ->
  dollar_free (Err.message error) = true ->
  wrapperFn callback response assertion own =
    (Throw (Err.set_stack
              (literal_splice (Err.stack own) (Err.message own) (Err.message error)) error),
     own).
Proof.
  intros H Hfree. rewrite (wrapperFn_rethrows _ _ _ _ _ H).
  rewrite (js_replace_dollar_free _ _ _ Hfree). reflexivity.
Qed.

(** C9. Where the claim breaks: for a callback whose error has the
    message [costs $$5], the stack of the error thrown again reads
    [costs $5], which is not the captured stack with the placeholder
    replaced by the new message. *)
Theorem wrapperFn_dollar_message :
  exists a thrown own,
    assertions dollar_queue = [a] /\
    call_fn post_response a (error a) = (Throw thrown, own) /\
    Err.message thrown = "costs $$5" /\
    Err.stack thrown =
      "AssertionError [ERR_ASSERTION]: costs $5" +:+ newline +:+ "    at test:1" /\
    literal_splice (Err.stack (error a)) (Err.message (error a)) (Err.message thrown) =
      "AssertionError [ERR_ASSERTION]: costs $$5" +:+ newline +:+ "    at test:1" /\
    Err.stack thrown <>
      literal_splice (Err.stack (error a)) (Err.message (error a)) (Err.message thrown).
Proof.
  eexists. eexists. eexists. split; [reflexivity|]. split; [reflexivity|].
  split; [reflexivity|]. split; [reflexivity|]. split; [reflexivity|].
  vm_compute. discriminate.
Qed.

(** ** Further properties of the scheduler *)

Lemma scheduled_order_elem queue i :
  i ∈ scheduled_order queue <-> i < length queue.
Proof.
  split; [apply scheduled_order_lt|].
  intros Hlt. destruct (lookup_lt_is_Some_2 queue i Hlt) as [a Ha].
  unfold scheduled_order. rewrite !elem_of_app, !positions_of_spec, Ha. simpl.
  destruct (kind_of a); auto.
Qed.

Lemma scheduled_order_Permutation queue :
  scheduled_order queue ≡ₚ seq 0 (length queue).
Proof.
  apply NoDup_Permutation.
  - apply scheduled_order_NoDup.
  - apply NoDup_seq.
  - intros i. rewrite scheduled_order_elem, elem_of_seq. lia.
Qed.

Lemma fail_fast_run_ok response queue order :
  is_ok (fail_fast_run response queue order).2 = true <->
  forall i, i ∈ order -> is_ok (check_outcome response queue i) = true.
Proof.
  induction order as [|i rest IH]; simpl.
  - split; [intros _ i Hi; apply elem_of_nil in Hi; contradiction|reflexivity].
  - destruct (check_outcome response queue i) as [[]|e] eqn:Hi.
    + destruct (fail_fast_run response queue rest) as [evaluated outcome]. simpl in *.
      rewrite IH. split.
      * intros H j Hj. apply elem_of_cons in Hj. destruct Hj as [->|Hj].
        -- rewrite Hi. reflexivity.
        -- apply H, Hj.
      * intros H j Hj. apply H. apply list_elem_of_further, Hj.
    + simpl. split; [discriminate|].
      intros H. specialize (H i (list_elem_of_here _ _)). rewrite Hi in H. exact H.
Qed.

(** X1. A run of [_assertAll] calls no descriptor twice and none that is
    not in the queue; when no check throws it has called every
    descriptor of the queue, each once. *)
Theorem assertAll_each_once response st :
  exists evaluated,
    calls (_assertAll response st).2 = calls st ++ evaluated /\
    NoDup evaluated /\
    (forall i, i ∈ evaluated -> i < length (assertions (this st))) /\
    (is_ok (_assertAll response st).1 = true ->
     evaluated ≡ₚ seq 0 (length (assertions (this st)))).
Proof.
  destruct (assertAll_run response st) as (st' & Hrun & Hcalls & _).
  destruct (fail_fast_run_prefix response (assertions (this st))
              (scheduled_order (assertions (this st)))) as [[k Hk] Hall].
  pose proof (scheduled_order_NoDup (assertions (this st))) as Hnd.
  exists (fail_fast_run response (assertions (this st))
            (scheduled_order (assertions (this st)))).1.
  rewrite Hrun. simpl. split; [exact Hcalls|].
  rewrite Hk in Hnd. apply NoDup_app in Hnd. destruct Hnd as (Hnd & _ & _).
  split; [exact Hnd|]. split.
  - intros i Hi. apply scheduled_order_lt. rewrite Hk. apply elem_of_app. left. exact Hi.
  - intros Hok. rewrite (Hall Hok). apply scheduled_order_Permutation.
Qed.

(** An empty queue: nothing to call. *)
Lemma assertAll_empty response st :
  assertions (this st) = [] -> _assertAll response st = (Ok tt, st).
Proof.
  intros Hq. unfold _assertAll, bind, read. rewrite Hq. reflexivity.
Qed.

(** X2. With an empty queue [finalize] calls no check and hands the
    response to the callback, leaving the request as it was; if the
    callback returns, that is the only call and [finalize] returns. *)
Theorem finalize_empty_queue callback response st :
  assertions (this st) = [] ->
  exists ds,
    deliveries (finalize callback (Responded response) st).2 =
      deliveries st ++ mkDelivery None (Some response) :: ds /\
    calls (finalize callback (Responded response) st).2 = calls st /\
    this (finalize callback (Responded response) st).2 = this st /\
    (callback (mkDelivery None (Some response)) = None ->
     ds = [] /\ (finalize callback (Responded response) st).1 = Ok tt).
Proof.
  intros Hq. unfold finalize, try_catch, bind, read, when, call_callback.
  rewrite Hq. simpl.
  destruct (callback (mkDelivery None (Some response))) as [thrown|].
  - exists [mkDelivery (Some thrown) None]. simpl. rewrite <- app_assoc.
    split; [reflexivity|]. split; [reflexivity|]. split; [reflexivity|discriminate].
  - exists []. simpl.
    split; [reflexivity|]. split; [reflexivity|]. split; [reflexivity|].
    intros _. split; reflexivity.
Qed.

(** X3. [finalize] throws only what the callback throws: with a callback
    that returns normally it returns normally, whatever the transport
    and the checks did. *)
Theorem finalize_never_throws callback outcome st :
  (forall d, callback d = None) ->
  (finalize callback outcome st).1 = Ok tt.
Proof.
  intros Hquiet. destruct outcome as [error|response].
  - unfold finalize, call_callback. simpl. rewrite Hquiet. reflexivity.
  - unfold finalize, try_catch, bind, read, when, call_callback.
    destruct (negb (Nat.eqb (length (assertions (this st))) 0)).
    + destruct (_assertAll response st) as [[[]|e] st1]; simpl;
        rewrite Hquiet; reflexivity.
    + simpl. rewrite Hquiet. reflexivity.
Qed.

(** X4. With a callback that returns normally and a queue whose regular
    expressions carry neither the [g] nor the [y] flag, [finalize] hands
    over the response, and nothing else, exactly when the check of every
    descriptor in the queue passes on the response. *)
Theorem finalize_delivers_response_iff callback response st :
  (forall d, callback d = None) ->
  stateless_queue (assertions (this st)) ->
  deliveries (finalize callback (Responded response) st).2 =
    deliveries st ++ [mkDelivery None (Some response)]
  <->
  forall i, i < length (assertions (this st)) ->
            is_ok (check_outcome response (assertions (this st)) i) = true.
Proof.
  intros Hquiet _.
  assert (is_ok (_assertAll response st).1 = true <->
          forall i, i < length (assertions (this st)) ->
                    is_ok (check_outcome response (assertions (this st)) i) = true)
    as Hiff.
  { destruct (assertAll_run response st) as (st' & Hrun & _).
    rewrite Hrun. simpl. rewrite fail_fast_run_ok.
    split; intros H i Hi; apply H; apply scheduled_order_elem; exact Hi. }
  destruct (assertAll_run response st) as (st' & Hrun & _ & Hdel & _).
  unfold finalize, try_catch, bind, read, when, call_callback.
  destruct (Nat.eqb (length (assertions (this st))) 0) eqn:Hlen; simpl.
  - rewrite Hquiet. simpl. split; [|reflexivity].
    intros _ i Hi. apply Nat.eqb_eq in Hlen. lia.
  - rewrite <- Hiff. rewrite Hrun. simpl.
    destruct (fail_fast_run response (assertions (this st))
                (scheduled_order (assertions (this st)))).2 as [[]|e]; simpl;
      rewrite ?Hquiet; simpl; rewrite Hdel.
    + split; reflexivity.
    + split; [|discriminate]. intros H. apply (inj (app _)) in H. discriminate H.
Qed.

(** ** What the checks leave alone *)

Lemma same_origin_refl e : same_origin e e.
Proof. repeat split. Qed.

Lemma same_origin_trans e1 e2 e3 :
  same_origin e1 e2 -> same_origin e2 e3 -> same_origin e1 e3.
Proof.
  intros (Hn & Hs & Hc) (Hn' & Hs' & Hc'). repeat split; congruence.
Qed.

Lemma keeps_ret {A} (a : A) : keeps_origin (ret a).
Proof. intros e. split; [apply same_origin_refl|discriminate]. Qed.

Lemma keeps_read : keeps_origin read.
Proof. intros e. split; [apply same_origin_refl|discriminate]. Qed.

Lemma keeps_bind {A B} (m : M Err.t A) (k : A -> M Err.t B) :
  keeps_origin m -> (forall a, keeps_origin (k a)) -> keeps_origin (bind m k).
Proof.
  intros Hm Hk e. unfold bind. destruct (Hm e) as [Ho Ht].
  destruct (m e) as [[a|t0] e1]; simpl in *.
  - destruct (Hk a e1) as [Ho' Ht']. split; [|exact Ht'].
    apply (same_origin_trans _ _ _ Ho Ho').
  - split; [exact Ho|]. intros t [= <-]. apply Ht. reflexivity.
Qed.

Lemma keeps_modify (f : Err.t -> Err.t) :
  (forall e, same_origin e (f e)) -> keeps_origin (modify f).
Proof. intros Hf e. split; [apply Hf|discriminate]. Qed.

Lemma keeps_lift {A} (r : Result A) : only_TypeError r -> keeps_origin (lift r).
Proof.
  intros Hr e. split; [apply same_origin_refl|].
  intros t Ht. right. apply Hr. exact Ht.
Qed.

Lemma keeps_fail_unless holds : keeps_origin (fail_unless holds).
Proof.
  intros e. unfold fail_unless. destruct holds; simpl.
  - split; [apply same_origin_refl|discriminate].
  - split; [apply same_origin_refl|]. intros t [= <-]. left. reflexivity.
Qed.

Lemma keeps_when c (m : M Err.t unit) : keeps_origin m -> keeps_origin (when c m).
Proof. intros Hm. unfold when. destruct c; [exact Hm|apply keeps_ret]. Qed.

Lemma keeps_js_and (a b : M Err.t value) :
  keeps_origin a -> keeps_origin b -> keeps_origin (js_and a b).
Proof.
  intros Ha Hb. unfold js_and. apply keeps_bind; [exact Ha|].
  intros x. destruct (truthy x); [exact Hb|apply keeps_ret].
Qed.

Lemma keeps_forEach {A} (l : list A) (f : A -> M Err.t unit) :
  (forall x, keeps_origin (f x)) -> keeps_origin (forEach l f).
Proof.
  intros Hf. induction l as [|x l IH]; simpl.
  - apply keeps_ret.
  - apply keeps_bind; [apply Hf|]. intros _. exact IH.
Qed.

Lemma get_prop_only_TypeError v k : only_TypeError (get_prop v k).
Proof.
  intros t. destruct v; simpl; try discriminate; try (intros [= <-]; reflexivity).
  - destruct (String.eqb k "length"); [discriminate|].
    destruct (is_array_index k); [|discriminate].
    destruct (index_of_key k (String.length s)); discriminate.
  - destruct (String.eqb k "length"); [discriminate|].
    destruct (is_array_index k); [|discriminate].
    destruct (index_of_key k (length items)); discriminate.
  - destruct (find_prop k props); discriminate.
Qed.

Lemma Object_keys_only_TypeError v : only_TypeError (Object_keys v).
Proof.
  intros t. destruct v; simpl; try discriminate; intros [= <-]; reflexivity.
Qed.

Lemma set_message_origin m e : same_origin e (Err.set_message m e).
Proof. repeat split. Qed.

Lemma set_expected_origin v e : same_origin e (Err.set_expected v e).
Proof. repeat split. Qed.

Lemma set_actual_origin v e : same_origin e (Err.set_actual v e).
Proof. repeat split. Qed.

Lemma set_showDiff_origin v e : same_origin e (Err.set_showDiff v e).
Proof. repeat split. Qed.

Create HintDb origin.
#[local] Hint Resolve keeps_ret keeps_read keeps_fail_unless
  get_prop_only_TypeError Object_keys_only_TypeError
  set_message_origin set_expected_origin set_actual_origin set_showDiff_origin
  : origin.
#[local] Hint Resolve keeps_lift keeps_modify keeps_when keeps_js_and : origin.

(** Takes a chain of binds apart and closes the steps with the hints. *)
Ltac keep_origin :=
  repeat first
    [ solve [auto with origin]
    | apply keeps_js_and
    | apply keeps_when
    | apply keeps_forEach; intros ?
    | apply keeps_modify; intros ?; repeat split
    | apply keeps_bind; [|intros ?] ].

Lemma first_error_message_keeps response : keeps_origin (first_error_message response).
Proof. unfold first_error_message. keep_origin. Qed.

Lemma assertStatus_keeps response assertion :
  keeps_origin (_assertStatus response assertion).
Proof.
  unfold _assertStatus, error_detail_guard.
  pose proof (first_error_message_keeps response). keep_origin; assumption.
Qed.

Lemma assertHeader_keeps response assertion :
  keeps_origin (_assertHeader response assertion).
Proof.
  unfold _assertHeader. cbv zeta. keep_origin.
  destruct (expectedValue assertion); keep_origin.
Qed.

Lemma assertSnapshot_keeps response assertion :
  keeps_origin (_assertSnapshot response assertion).
Proof. unfold _assertSnapshot. cbv zeta. keep_origin. Qed.

(** X5. No check rewrites the name, the captured stack or the request
    description of the error it works on; and what one of the three
    built-in checks throws is that error, as the check has left it, or a
    [TypeError] of a property access, while the closure of [expect]
    throws the callback's error and leaves the descriptor's error
    untouched. *)
Theorem call_fn_keeps_origin response assertion error :
  same_origin error (call_fn response assertion error).2 /\
  forall t,
    (call_fn response assertion error).1 = Throw t ->
    match fn assertion with
    | FnWrapper callback =>
        (call_fn response assertion error).2 = error /\
        exists thrown,
          callback response = Some thrown /\
          Err.message t = Err.message thrown /\ Err.name t = Err.name thrown
    | _ => t = (call_fn response assertion error).2 \/ Err.name t = "TypeError"
    end.
Proof.
  unfold call_fn. destruct (fn assertion) as [callback| | |].
  - unfold wrapperFn. destruct (callback response) as [thrown|] eqn:Hcb.
    + unfold bind, read, throw. simpl. split; [apply same_origin_refl|].
      intros t [= <-]. split; [reflexivity|]. exists thrown. repeat split.
    + split; [apply same_origin_refl|]. discriminate.
  - apply assertStatus_keeps.
  - apply assertHeader_keeps.
  - apply assertSnapshot_keeps.
Qed.

Lemma call_fn_same_origin response assertion error :
  same_origin error (call_fn response assertion error).2.
Proof.
  unfold call_fn. destruct (fn assertion) as [callback| | |].
  - unfold wrapperFn. destruct (callback response); apply same_origin_refl.
  - apply assertStatus_keeps.
  - apply assertHeader_keeps.
  - apply assertSnapshot_keeps.
Qed.

Lemma evaluated_version_refl q : Forall2 evaluated_version q q.
Proof.
  apply Forall_Forall2_diag, Forall_forall. intros [] _.
  split; [reflexivity|apply same_origin_refl].
Qed.

Lemma invoke_frame response q0 i st :
  Forall2 evaluated_version q0 (assertions (this st)) ->
  Forall2 evaluated_version q0 (assertions (this (invoke response i st).2)) /\
  reqOptions (this (invoke response i st).2) = reqOptions (this st) /\
  deliveries (invoke response i st).2 = deliveries st /\
  exists evaluated,
    calls (invoke response i st).2 = calls st ++ evaluated /\
    forall j, j ∉ evaluated ->
              assertions (this (invoke response i st).2) !! j = assertions (this st) !! j.
Proof.
  intros HF. unfold invoke. destruct (assertions (this st) !! i) as [a|] eqn:Hi.
  - pose proof (call_fn_same_origin response a (error a)) as Horigin.
    destruct (call_fn response a (error a)) as [o e']. simpl in *.
    split; [|split; [reflexivity|split; [reflexivity|]]].
    + destruct (Forall2_lookup_r _ _ _ _ _ HF Hi) as (a0 & H0 & Heq & Ho).
      rewrite <- (list_insert_id q0 i a0 H0).
      apply Forall2_insert; [exact HF|]. split.
      * rewrite <- Heq. destruct a; reflexivity.
      * apply (same_origin_trans _ _ _ Ho Horigin).
    + exists [i]. split; [reflexivity|].
      intros j Hj. apply list_lookup_insert_ne. intros ->. apply Hj, list_elem_of_here.
  - simpl. split; [exact HF|]. split; [reflexivity|]. split; [reflexivity|].
    exists []. rewrite app_nil_r. split; reflexivity.
Qed.

Lemma forEach_invoke_frame response q0 order :
  forall st,
    Forall2 evaluated_version q0 (assertions (this st)) ->
    Forall2 evaluated_version q0
            (assertions (this (forEach order (invoke response) st).2)) /\
    reqOptions (this (forEach order (invoke response) st).2) = reqOptions (this st) /\
    deliveries (forEach order (invoke response) st).2 = deliveries st /\
    exists evaluated,
      calls (forEach order (invoke response) st).2 = calls st ++ evaluated /\
      forall j, j ∉ evaluated ->
                assertions (this (forEach order (invoke response) st).2) !! j =
                  assertions (this st) !! j.
Proof.
  induction order as [|i rest IH]; intros st HF.
  - simpl. split; [exact HF|]. split; [reflexivity|]. split; [reflexivity|].
    exists []. rewrite app_nil_r. split; reflexivity.
  - destruct (invoke_frame response q0 i st HF)
      as (HF1 & Hopt1 & Hdel1 & ev1 & Hcalls1 & Hframe1).
    simpl forEach. unfold bind.
    destruct (invoke response i st) as [[[]|e] st1]; simpl in *.
    + destruct (IH st1 HF1) as (HF2 & Hopt2 & Hdel2 & ev2 & Hcalls2 & Hframe2).
      split; [exact HF2|]. split; [congruence|]. split; [congruence|].
      exists (ev1 ++ ev2). split.
      * rewrite Hcalls2, Hcalls1, <- app_assoc. reflexivity.
      * intros j Hj. rewrite not_elem_of_app in Hj. destruct Hj as [Hj1 Hj2].
        rewrite (Hframe2 j Hj2). apply Hframe1, Hj1.
    + split; [exact HF1|]. split; [exact Hopt1|]. split; [exact Hdel1|].
      exists ev1. split; [exact Hcalls1|exact Hframe1].
Qed.

(** X6. Evaluation never adds, drops, reorders or retargets a
    descriptor: after [_assertAll] the queue holds the same descriptors,
    each with the same [fn], [type] and arguments and an error of the
    same name, stack and request description; a descriptor that was not
    called is untouched altogether; the request options and the
    callback log are as before. [finalize] keeps the queue in the same
    way. *)
Theorem assertAll_preserves_queue response st :
  (Forall2 evaluated_version (assertions (this st))
           (assertions (this (_assertAll response st).2)) /\
   reqOptions (this (_assertAll response st).2) = reqOptions (this st) /\
   deliveries (_assertAll response st).2 = deliveries st /\
   exists evaluated,
     calls (_assertAll response st).2 = calls st ++ evaluated /\
     forall j, j ∉ evaluated ->
               assertions (this (_assertAll response st).2) !! j =
                 assertions (this st) !! j) /\
  (forall callback outcome,
     Forall2 evaluated_version (assertions (this st))
             (assertions (this (finalize callback outcome st).2)) /\
     reqOptions (this (finalize callback outcome st).2) = reqOptions (this st)).
Proof.
  assert (Forall2 evaluated_version (assertions (this st))
                  (assertions (this (_assertAll response st).2)) /\
          reqOptions (this (_assertAll response st).2) = reqOptions (this st) /\
          deliveries (_assertAll response st).2 = deliveries st /\
          exists evaluated,
            calls (_assertAll response st).2 = calls st ++ evaluated /\
            forall j, j ∉ evaluated ->
                      assertions (this (_assertAll response st).2) !! j =
                        assertions (this st) !! j) as Hall.
  { rewrite assertAll_scheduled.
    apply forEach_invoke_frame, evaluated_version_refl. }
  split; [exact Hall|].
  intros callback outcome. destruct outcome as [error|response'].
  - simpl. split; [apply evaluated_version_refl|reflexivity].
  - assert (Forall2 evaluated_version (assertions (this st))
                    (assertions (this (_assertAll response' st).2)) /\
            reqOptions (this (_assertAll response' st).2) = reqOptions (this st))
      as [HF Hopt].
    { rewrite assertAll_scheduled.
      destruct (forEach_invoke_frame response' (assertions (this st))
                  (scheduled_order (assertions (this st))) st
                  (evaluated_version_refl _)) as (H1 & H2 & _).
      split; assumption. }
    unfold finalize, try_catch, bind, read, when, call_callback.
    destruct (negb (Nat.eqb (length (assertions (this st))) 0)).
    + destruct (_assertAll response' st) as [[[]|e] st1]; simpl in *.
      * destruct (callback (mkDelivery None (Some response'))); simpl;
          split; assumption.
      * split; assumption.
    + simpl. destruct (callback (mkDelivery None (Some response'))); simpl;
        split; first [apply evaluated_version_refl|reflexivity].
Qed.

(** ** The status check, when its guard does not throw *)

Lemma error_detail_guard_pure response error error' guard :
  (error_detail_guard response error).1 = Ok guard ->
  error_detail_guard response error' = (Ok guard, error').
Proof.
  unfold error_detail_guard, js_and, bind, ret, lift.
  destruct (truthy (body response)); [|simpl; intros ->; reflexivity].
  destruct (get_prop (body response) "errors") as [errors|]; [|discriminate].
  destruct (truthy errors); [|simpl; intros ->; reflexivity].
  rewrite (first_error_message_pure response error),
          (first_error_message_pure response error'),
          (first_error_message_state response error error').
  simpl. intros ->. reflexivity.
Qed.

Lemma error_detail_guard_detail response error guard :
  error_detail_guard response error = (Ok guard, error) ->
  truthy guard = true ->
  first_error_message response error = (Ok guard, error).
Proof.
  unfold error_detail_guard, js_and, bind, ret, lift.
  destruct (truthy (body response)) eqn:Hb;
    [|intros [= <-]; rewrite Hb; discriminate].
  destruct (get_prop (body response) "errors") as [errors|]; [|discriminate].
  destruct (truthy errors) eqn:He; [|intros [= <-]; rewrite He; discriminate].
  rewrite (first_error_message_pure response error).
  destruct (first_error_message response error).1; [|discriminate].
  intros [= ->] _. reflexivity.
Qed.

(** The whole status check in one equation. *)
Lemma assertStatus_run response assertion error guard :
  (error_detail_guard response error).1 = Ok guard ->
  _assertStatus response assertion error =
    fail_unless (loose_eq_num (statusCode response) (expected assertion))
                (status_error response assertion guard error).
Proof.
  intros Hguard.
  unfold _assertStatus. unfold bind at 1. unfold read at 1. cbv iota beta.
  unfold bind at 1. unfold modify at 1. cbv iota beta.
  fold (status_message (expected assertion) (statusCode response)
                       (Err.contextString error)).
  set (message0 := status_message (expected assertion) (statusCode response)
                                  (Err.contextString error)).
  set (error0 := Err.set_message message0 error).
  pose proof (error_detail_guard_pure response error error0 guard Hguard) as Hrun.
  unfold bind at 1. rewrite Hrun. cbv iota beta.
  unfold status_error. fold message0.
  destruct (truthy guard) eqn:Htruthy.
  - unfold when, bind, modify.
    rewrite (error_detail_guard_detail response error0 guard Hrun Htruthy).
    reflexivity.
  - unfold when, bind, ret, modify. cbv iota beta.
    rewrite string_app_empty_r. reflexivity.
Qed.

(** X7. When reading the error detail off the body does not throw, the
    status check passes exactly when the status code loosely equals the
    expected value: for an expected number, when the two are the same
    number; never when [expectStatus] was given [undefined] or [null].
    Pass or fail, it leaves the actual code on the descriptor's error. *)
Theorem assertStatus_passes_iff response assertion error guard :
  (error_detail_guard response error).1 = Ok guard ->
  let run := _assertStatus response assertion error in
  (is_ok run.1 = true <->
   loose_eq_num (statusCode response) (expected assertion) = true) /\
  (forall n, expected assertion = VNum n ->
             (is_ok run.1 = true <-> statusCode response = n)) /\
  (nullish (expected assertion) = true -> is_ok run.1 = false) /\
  Err.actual run.2 = VNum (statusCode response).
Proof.
  intros Hguard. cbv zeta. rewrite (assertStatus_run _ _ _ _ Hguard).
  unfold fail_unless.
  split; [|split; [|split]].
  - destruct (loose_eq_num (statusCode response) (expected assertion));
      simpl; split; auto.
  - intros n Hn. rewrite Hn. simpl.
    destruct (Z.eqb_spec (statusCode response) n); simpl; split; auto; discriminate.
  - destruct (expected assertion); try discriminate; reflexivity.
  - destruct (loose_eq_num (statusCode response) (expected assertion)); reflexivity.
Qed.

(** ** The snapshot check, case by case *)

Lemma forEach_property_present (m : Match.t) (field target : value) keys :
  (forall prop, prop ∈ keys ->
                exists x, get_prop target prop = Ok x /\ nullish x = false) ->
  forall error,
  exists error',
    forEach keys (fun prop =>
      let errorMessage :=
        dquote +:+ "response." +:+ to_string field +:+ dquote +:+
        " is missing the expected property " +:+ dquote +:+ prop +:+ dquote in
      modify (Err.set_message
                (makeMessageFromMatchMessage (Match.message m) errorMessage)) ;;
      modify (Err.set_expected (VStr prop)) ;;
      modify (Err.set_actual (VStr "undefined")) ;;
      modify (Err.set_showDiff (VBool false)) ;;
      found <- lift (get_prop target prop) ;;
      fail_unless (negb (nullish found))) error = (Ok tt, error').
Proof.
  induction keys as [|k keys IH]; intros Hall error.
  - exists error. reflexivity.
  - destruct (Hall k (list_elem_of_here _ _)) as (x & Hx & Hnx).
    simpl forEach. unfold bind, modify, lift, fail_unless. simpl.
    rewrite Hx, Hnx. simpl.
    apply IH. intros prop Hin. apply Hall, list_elem_of_further, Hin.
Qed.

(** The guard on the target of the snapshot check, when the target is
    there: it may write on the error, it does not throw. *)
Lemma snapshot_guard_passes (field target : value) error :
  nullish target = false ->
  exists error',
    when (negb (truthy target))
         (error <- read ;;
          modify (Err.set_message
                    ("Unable to match snapshot on undefined field " +:+
                     to_string field +:+ " " +:+ Err.contextString error)) ;;
          modify (Err.set_expected field) ;;
          modify (Err.set_actual (VStr "undefined")) ;;
          fail_unless (negb (nullish target))) error = (Ok tt, error').
Proof.
  intros Htarget. unfold when. destruct (negb (truthy target)).
  - unfold bind, read, modify, fail_unless. rewrite Htarget. simpl.
    eexists. reflexivity.
  - exists error. reflexivity.
Qed.

(** X8. When the targeted field is there (also when it is falsy, like
    [0] or the empty string) and every property named in the mapping is
    there, the snapshot check passes exactly when the Snapshot Matcher
    passes; when the matcher does not pass, the descriptor's error is
    thrown with the "does not match snapshot" message, the matcher's
    [expected] and [actual], and [showDiff] off. *)
Theorem assertSnapshot_passes_iff response assertion error props :
  let target := response_prop response (to_string (field assertion)) in
  let m := snapshotManager_match target (properties assertion)
                                 ("[" +:+ to_string (field assertion) +:+ "]") in
  let run := _assertSnapshot response assertion error in
  properties assertion = VObj props ->
  nullish target = false ->
  (forall prop, prop ∈ map fst props ->
                exists x, get_prop target prop = Ok x /\ nullish x = false) ->
  (is_ok run.1 = true <-> Match.pass m = true) /\
  (Match.pass m = false ->
   exists e,
     run = (Throw e, e) /\
     Err.message e =
       makeMessageFromMatchMessage (Match.message m)
                                   (snapshot_mismatch_message (field assertion)) /\
     Err.expected e = Match.expected m /\
     Err.actual e = Match.actual m /\
     Err.showDiff e = VBool false).
Proof.
  cbv zeta. intros Hprops Htarget Hall.
  set (target := response_prop response (to_string (field assertion))) in *.
  rewrite Hprops.
  set (m := snapshotManager_match target (VObj props)
                                  ("[" +:+ to_string (field assertion) +:+ "]")).
  assert (exists error2,
            _assertSnapshot response assertion error =
              if Match.pass m then (Ok tt, error2)
              else
                let e :=
                  Err.set_showDiff (VBool false)
                    (Err.set_actual (Match.actual m)
                       (Err.set_expected (Match.expected m)
                          (Err.set_message
                             (makeMessageFromMatchMessage
                                (Match.message m)
                                (snapshot_mismatch_message (field assertion)))
                             error2))) in
                (Throw e, e)) as [error2 Hrun].
  { unfold _assertSnapshot. rewrite Hprops. fold target. fold m.
    destruct (snapshot_guard_passes (field assertion) target error Htarget)
      as (error1 & Hguard).
    unfold bind at 1. rewrite Hguard. cbv iota beta.
    destruct (forEach_property_present m (field assertion) target (map fst props)
                Hall error1) as (error2 & Hloop).
    exists error2.
    unfold bind, lift in Hloop |- *. simpl Object_keys.
    cbv beta iota zeta in Hloop |- *. rewrite Hloop.
    unfold when, modify, fail_unless.
    destruct (Match.pass m); reflexivity. }
  rewrite Hrun. destruct (Match.pass m); simpl.
  - split; [split; reflexivity|discriminate].
  - split; [split; discriminate|]. intros _.
    eexists. split; [reflexivity|]. repeat split.
Qed.

(** X9. A property named in the mapping whose value in the targeted
    field is [null] counts as missing: the check fails with the
    "missing the expected property" message, whatever the matcher
    says. *)
Theorem assertSnapshot_null_property response assertion error props prop :
  let target := response_prop response (to_string (field assertion)) in
  let m := snapshotManager_match target (properties assertion)
                                 ("[" +:+ to_string (field assertion) +:+ "]") in
  properties assertion = VObj props ->
  prop ∈ map fst props ->
  nullish target = false ->
  get_prop target prop = Ok VNull ->
  exists e missing,
    _assertSnapshot response assertion error = (Throw e, e) /\
    missing ∈ map fst props /\
    Err.message e =
      makeMessageFromMatchMessage (Match.message m)
                                  (missing_property_message (field assertion) missing) /\
    Err.expected e = VStr missing /\
    Err.actual e = VStr "undefined".
Proof.
  cbv zeta. intros Hprops Hin Htarget Hnull.
  unfold _assertSnapshot. rewrite Hprops.
  set (target := response_prop response (to_string (field assertion))) in *.
  set (m := snapshotManager_match target (VObj props)
                                  ("[" +:+ to_string (field assertion) +:+ "]")).
  destruct (snapshot_guard_passes (field assertion) target error Htarget)
    as (error1 & Hguard).
  unfold bind at 1. rewrite Hguard. cbv iota beta.
  assert (exists prop x, prop ∈ map fst props /\
                         get_prop target prop = Ok x /\ nullish x = true) as Hmissing
    by (exists prop, VNull; repeat split; assumption).
  pose proof (forEach_property_missing m (field assertion) target (map fst props)
                Htarget Hmissing error1) as Hfirst.
  unfold bind, lift in Hfirst |- *. simpl Object_keys.
  cbv beta iota zeta in Hfirst |- *.
  destruct Hfirst as (e & missing & z & Hrun & Hmem & _ & _ & Hmsg & Hexp & _).
  rewrite Hrun. exists e, missing.
  split; [reflexivity|]. split; [exact Hmem|]. split; [exact Hmsg|].
  split; [exact Hexp|].
  revert Hrun. clear. revert error1.
  induction (map fst props) as [|k keys IH]; intros error1; simpl.
  - discriminate.
  - unfold modify, fail_unless.
    destruct (get_prop target k) as [y|]; simpl; [|intros [= <- <-]; reflexivity].
    destruct (nullish y); simpl.
    + intros [= <-]. reflexivity.
    + apply IH.
Qed.

(** X10. A targeted field that is [null] is treated like one that is
    absent: the snapshot check throws the descriptor's error with the
    "undefined field" message, the field name as [expected] and the text
    [undefined] as [actual], before the Snapshot Matcher's result is
    looked at. *)
Theorem assertSnapshot_null_target response assertion error :
  response_prop response (to_string (field assertion)) = VNull ->
  exists e,
    _assertSnapshot response assertion error = (Throw e, e) /\
    Err.message e = undefined_field_message (field assertion) (Err.contextString error) /\
    Err.expected e = field assertion /\
    Err.actual e = VStr "undefined".
Proof.
  intros Hnull. unfold _assertSnapshot. rewrite Hnull.
  unfold bind, when, read, modify, fail_unless. simpl.
  eexists. split; [reflexivity|]. repeat split.
Qed.

(** X11. [matchBodySnapshot(null)] and [matchHeaderSnapshot(null)]: the
    default mapping stands in for [undefined] only, so the descriptor
    keeps [null], and on a response that has the targeted field the
    check throws the [TypeError] of [Object.keys(null)], whatever the
    matcher answers. *)
Theorem assertSnapshot_null_properties site this response a error :
  a = body_snapshot_descriptor site this VNull \/
  a = header_snapshot_descriptor site this VNull ->
  nullish (response_prop response (to_string (field a))) = false ->
  properties a = VNull /\
  exists error',
    _assertSnapshot response a error = (Throw keys_of_nothing, error').
Proof.
  intros Ha Htarget.
  assert (properties a = VNull) as Hprops by (destruct Ha as [-> | ->]; reflexivity).
  split; [exact Hprops|].
  unfold _assertSnapshot. rewrite Hprops.
  destruct (snapshot_guard_passes (field a)
              (response_prop response (to_string (field a))) error Htarget)
    as (error1 & Hguard).
  unfold bind at 1. rewrite Hguard. cbv iota beta.
  exists error1. reflexivity.
Qed.

(** ** The header check at the edges *)

(** X12. On a response without a [headers] object the header check
    throws the [TypeError] of the property access, before it has
    written anything on the descriptor's error. *)
Theorem assertHeader_without_headers response assertion error :
  nullish (headers response) = true ->
  exists t,
    _assertHeader response assertion error = (Throw t, error) /\
    Err.name t = "TypeError".
Proof.
  intros Hnull. unfold _assertHeader. cbv zeta. unfold bind at 1. unfold lift.
  destruct (headers response); try discriminate Hnull; simpl;
    eexists; split; reflexivity.
Qed.

(** X13. With a literal expected value and the header present, the
    header check compares texts: it passes exactly when the expected
    value and the actual value render to the same string, so a number
    matches the header text that spells it. *)
Theorem assertHeader_literal_text response assertion error actual :
  get_prop (headers response) (to_string (expectedField assertion)) = Ok actual ->
  is_undefined actual = false ->
  instanceof_RegExp (expectedValue assertion) = false ->
  (is_ok (_assertHeader response assertion error).1 = true <->
   to_string (expectedValue assertion) = to_string actual).
Proof.
  intros Hget Hdef Hlit.
  assert (is_ok (_assertHeader response assertion error).1 =
          String.eqb (to_string (expectedField assertion) +:+ ": " +:+
                      to_string (expectedValue assertion))
                     (to_string (expectedField assertion) +:+ ": " +:+
                      to_string actual)) as Hrun.
  { unfold _assertHeader, bind, lift. cbv zeta. rewrite Hget. simpl.
    rewrite Hdef. simpl.
    destruct (expectedValue assertion); try discriminate Hlit;
      unfold modify, fail_unless; simpl;
      match goal with
      | |- context [String.eqb ?x ?y] => destruct (String.eqb x y); reflexivity
      end. }
  rewrite Hrun, String.eqb_eq. split.
  - intros H. do 2 apply (inj (String.app _)) in H. exact H.
  - intros ->. reflexivity.
Qed.

(** ** The stack of a callback's error *)

Lemma split_first_registered_stack site :
  split_first placeholder_message
              (Err.captured_stack "AssertionError [ERR_ASSERTION]"
                                  placeholder_message site) =
    Some (stack_header, newline +:+ site).
Proof. reflexivity. Qed.

(** X14. For a descriptor registered by [expect] at [site]: when the
    callback throws, the error thrown again is the callback's error with
    its own message and name, and its stack is the header of the
    captured stack, a rendering of the new message, and then the frames
    of the registration site: the stack stays rooted at [site] whatever
    the message is, and the rendering is the message itself when that
    has no dollar sign. *)
Theorem expect_stack_rooted_at_site site this callback response thrown :
  let a := mkAssertion (FnWrapper callback) (VStr "body")
                       (registered_error site this VUndefined)
                       VUndefined VUndefined VUndefined VUndefined VUndefined in
  callback response = Some thrown ->
  exists rendering,
    call_fn response a (error a) =
      (Throw (Err.set_stack (stack_header +:+ rendering +:+ newline +:+ site) thrown),
       error a) /\
    (dollar_free (Err.message thrown) = true -> rendering = Err.message thrown).
Proof.
  intros a Hcb.
  change (call_fn response a (error a)) with (wrapperFn callback response a (error a)).
  rewrite (wrapperFn_rethrows callback response a (error a) thrown Hcb).
  unfold js_replace.
  change (split_first _ _)
    with (split_first placeholder_message
            (Err.captured_stack "AssertionError [ERR_ASSERTION]"
                                placeholder_message site)).
  rewrite split_first_registered_stack.
  eexists. split; [reflexivity|].
  intros Hfree. apply get_substitution_dollar_free, Hfree.
Qed.

(** ** Registration, call after call *)

Lemma register_step site call this :
  (exists e, register site call this = (Throw e, this)) \/
  (exists d,
     register site call this = (Ok (with_descriptor this d), with_descriptor this d) /\
     registered_on this d /\
     kind_of d = call_kind call /\
     Err.stack (error d) =
       Err.captured_stack "AssertionError [ERR_ASSERTION]" placeholder_message site).
Proof.
  destruct call as [[f|v]|expected|expectedField expectedValue|properties|properties];
    simpl register.
  - right. eexists. split; [reflexivity|]. repeat split.
  - left. eexists. reflexivity.
  - right. eexists. split; [reflexivity|]. repeat split.
  - destruct expectedField; try (left; eexists; reflexivity).
    right. exists (header_descriptor site this s expectedValue).
    split; [reflexivity|]. repeat split.
  - right. eexists. split; [reflexivity|]. repeat split.
  - right. eexists. split; [reflexivity|]. repeat split.
Qed.

Lemma lookup_map {A B} (f : A -> B) (l : list A) i :
  map f l !! i = f <$> (l !! i).
Proof.
  revert i. induction l as [|x l IH]; intros [|i]; simpl; try reflexivity.
  apply IH.
Qed.

(** What a chain does to the queue, step by step. *)
Lemma chain_steps calls this :
  reqOptions (chain calls this).2 = reqOptions this /\
  exists added,
    assertions (chain calls this).2 = assertions this ++ added /\
    Forall (registered_on this) added /\
    length added <= length calls /\
    (is_ok (chain calls this).1 = true ->
     map kind_of added = map (fun c => call_kind c.2) calls).
Proof.
  revert this. induction calls as [|[site call] calls IH]; intros this.
  - simpl. split; [reflexivity|]. exists []. rewrite app_nil_r.
    split; [reflexivity|]. split; [constructor|]. split; [simpl; lia|reflexivity].
  - simpl chain. unfold bind.
    destruct (register_step site call this)
      as [[e Hthrow] | (d & Hok & Hreg & Hkind & _)].
    + rewrite Hthrow. simpl. split; [reflexivity|]. exists []. rewrite app_nil_r.
      split; [reflexivity|]. split; [constructor|]. split; [simpl; lia|discriminate].
    + rewrite Hok. destruct (IH (with_descriptor this d))
        as (Hopt & added & Hq & Hall & Hlen & Hkinds).
      split; [exact Hopt|].
      exists (d :: added). split.
      * rewrite Hq. simpl. rewrite <- app_assoc. reflexivity.
      * split; [constructor; [exact Hreg|exact Hall]|].
        split; [simpl; lia|].
        intros Hrun. simpl. rewrite Hkind, (Hkinds Hrun). reflexivity.
Qed.

(** X15. A chain of registration calls only appends to the queue: what
    was queued stays, in place and unchanged, and the request options
    are not touched. Every descriptor added carries a new
    [AssertionError] with the placeholder message, the expected value of
    the descriptor and the description of this request. When no call
    throws there is one descriptor per call, in call order, each in the
    bucket of its method. *)
Theorem chain_appends registrations this :
  let after := (chain registrations this).2 in
  reqOptions after = reqOptions this /\
  (forall i a, assertions this !! i = Some a -> assertions after !! i = Some a) /\
  (forall i a, assertions after !! i = Some a ->
               length (assertions this) <= i -> registered_on this a) /\
  length (assertions after) <= length (assertions this) + length registrations /\
  (is_ok (chain registrations this).1 = true ->
   length (assertions after) = length (assertions this) + length registrations /\
   forall i c, registrations !! i = Some c ->
               kind_of <$> assertions after !! (length (assertions this) + i) =
                 Some (call_kind c.2)).
Proof.
  cbv zeta.
  destruct (chain_steps registrations this) as (Hopt & added & Hq & Hall & Hlen & Hkinds).
  rewrite Hq. split; [exact Hopt|]. split; [|split; [|split]].
  - intros i a Hi. apply lookup_app_l_Some, Hi.
  - intros i a Hi Hge. rewrite lookup_app_r in Hi by exact Hge.
    rewrite Forall_forall in Hall. apply Hall.
    apply list_elem_of_lookup. eexists. exact Hi.
  - rewrite length_app. lia.
  - intros Hok. specialize (Hkinds Hok).
    assert (length added = length registrations) as Hsame
      by (rewrite <- (length_map kind_of added), Hkinds, length_map; reflexivity).
    split; [rewrite length_app, Hsame; reflexivity|].
    intros i c Hi. rewrite lookup_app_r by lia.
    replace (length (assertions this) + i - length (assertions this)) with i by lia.
    rewrite <- (lookup_map kind_of added i), Hkinds, lookup_map, Hi. reflexivity.
Qed.

(** X16. [expectHeader] with a field that is not a string throws a
    [TypeError] at registration and queues nothing. *)
Theorem expectHeader_requires_string site expectedField expectedValue this :
  (forall s, expectedField <> VStr s) ->
  exists t,
    expectHeader site expectedField expectedValue this = (Throw t, this) /\
    Err.name t = "TypeError".
Proof.
  intros Hnot. unfold expectHeader, bind, lift.
  destruct expectedField; simpl; try (eexists; split; reflexivity).
  exfalso. apply (Hnot s). reflexivity.
Qed.

(** X17. From registration to evaluation: for a request that starts
    with an empty queue and a chain of registration calls none of which
    throws, the order in which [_assertAll] calls the checks depends on
    the methods called only: the calls of [expect] and
    [matchBodySnapshot] in call order, then those of [expectHeader] and
    [matchHeaderSnapshot], then those of [expectStatus], up to the first
    check that throws. *)
Theorem chain_then_assertAll registrations request response st :
  assertions request = [] ->
  is_ok (chain registrations request).1 = true ->
  this st = (chain registrations request).2 ->
  exists evaluated,
    calls (_assertAll response st).2 = calls st ++ evaluated /\
    evaluated `prefix_of`
      (call_positions Body registrations ++ call_positions Header registrations ++
       call_positions Status registrations) /\
    (is_ok (_assertAll response st).1 = true ->
     length evaluated = length registrations).
Proof.
  intros Hempty Hok Hthis.
  destruct (chain_steps registrations request)
    as (_ & added & Hq & _ & _ & Hkinds).
  specialize (Hkinds Hok). rewrite Hempty in Hq. simpl in Hq.
  assert (forall k, positions_of k (assertions (this st)) =
                    call_positions k registrations) as Hpos.
  { intros k. unfold positions_of, call_positions.
    rewrite Hthis, Hq.
    replace (length added) with (length registrations)
      by (rewrite <- (length_map kind_of added), Hkinds, length_map; reflexivity).
    apply list_filter_iff. intros i.
    rewrite <- (lookup_map kind_of added i), Hkinds, lookup_map. reflexivity. }
  destruct (assertAll_run response st) as (st' & Hrun & Hcalls & _).
  destruct (fail_fast_run_prefix response (assertions (this st))
              (scheduled_order (assertions (this st)))) as [Hprefix Hall].
  unfold scheduled_order in *. rewrite !Hpos in *.
  eexists. rewrite Hrun. simpl. split; [exact Hcalls|]. split; [exact Hprefix|].
  intros Hpass. rewrite (Hall Hpass).
  rewrite <- !Hpos.
  change (length (scheduled_order (assertions (this st))) = length registrations).
  rewrite (Permutation_length (scheduled_order_Permutation _)), length_seq.
  rewrite Hthis, Hq, <- (length_map kind_of added), Hkinds, length_map. reflexivity.
Qed.

Lemma get_prop_truthy v k : truthy v = true -> exists x, get_prop v k = Ok x.
Proof.
  intros Hv. apply get_prop_defined. destruct v; try discriminate; reflexivity.
Qed.

Lemma get_prop_nullish v k :
  nullish v = true ->
  get_prop v k =
    Throw (Err.TypeError ("Cannot read properties of " +:+ to_string v +:+
                          " (reading '" +:+ k +:+ "')")).
Proof. destruct v; try discriminate; reflexivity. Qed.

(** X18. The status check in two cases. If the body has a truthy
    [errors] whose first element is [undefined] or [null], the check
    throws the [TypeError] of reading [message] off that element, with
    the codes equal or not. In every other case (no body, no [errors],
    a first element that is there) reading the detail does not throw,
    and the check throws the prepared error exactly when the codes
    differ. *)
Theorem assertStatus_cases response assertion error :
  (first_error_missing response = true ->
   exists first prepared,
     nullish first = true /\
     _assertStatus response assertion error =
       (Throw (Err.TypeError ("Cannot read properties of " +:+ to_string first +:+
                              " (reading 'message')")), prepared)) /\
  (first_error_missing response = false ->
   exists guard,
     (error_detail_guard response error).1 = Ok guard /\
     _assertStatus response assertion error =
       fail_unless (loose_eq_num (statusCode response) (expected assertion))
                   (status_error response assertion guard error)).
Proof.
  unfold first_error_missing. split.
  - intros Hmissing. apply andb_true_iff in Hmissing. destruct Hmissing as [Hb Hrest].
    destruct (get_prop (body response) "errors") as [errors|] eqn:He; [|discriminate].
    apply andb_true_iff in Hrest. destruct Hrest as [Het Hfirst].
    destruct (get_prop errors "0") as [first|] eqn:H0; [|discriminate].
    exists first. eexists. split; [exact Hfirst|].
    unfold _assertStatus, error_detail_guard, js_and, first_error_message,
      bind, read, modify, lift, ret.
    rewrite Hb, He, Het, H0, (get_prop_nullish first "message" Hfirst). reflexivity.
  - intros Hpresent.
    assert (exists guard, (error_detail_guard response error).1 = Ok guard)
      as [guard Hguard].
    { unfold error_detail_guard, js_and, first_error_message, bind, lift, ret.
      destruct (truthy (body response)) eqn:Hb; [|eexists; reflexivity].
      destruct (get_prop_truthy (body response) "errors" Hb) as [errors He].
      rewrite He in Hpresent |- *.
      destruct (truthy errors) eqn:Het; [|eexists; reflexivity].
      destruct (get_prop_truthy errors "0" Het) as [first H0].
      rewrite H0 in Hpresent |- *. simpl in Hpresent.
      destruct (get_prop_defined first "message" Hpresent) as [x Hx].
      rewrite Hx. eexists. reflexivity. }
    exists guard. split; [exact Hguard|]. apply assertStatus_run, Hguard.
Qed.

End Checks.

(** ** The theorems at the samples *)

(** On the passing queue all four checks are called: the callback and
    the body snapshot, then the header, then the status. *)
Lemma assertAll_three_bucket_order_witness :
  calls (_assertAll sample_prototype sample_stringify sample_number
                    sample_make_message sample_match
                    post_response (initial passing_queue)).2 = [2; 3; 1; 0].
Proof.
  destruct (assertAll_three_bucket_order
              sample_prototype sample_stringify sample_number sample_make_message sample_match
              post_response (initial passing_queue))
    as [(evaluated & Hcalls & _ & Hall) _].
  rewrite Hcalls, (Hall eq_refl). reflexivity.
Defined.

(** On the sample queue against the 404, the callback and the header
    pass, [expectStatus(200)] fails and [expectStatus(201)] is never
    called. *)
Lemma assertAll_fail_fast_witness :
  exists e st',
    _assertAll sample_prototype sample_stringify sample_number sample_make_message sample_match
               not_found_response (initial sample_queue) = (Throw e, st') /\
    calls st' = [3; 2; 0] /\
    1 ∉ calls st'.
Proof.
  edestruct (assertAll_fail_fast
               sample_prototype sample_stringify sample_number sample_make_message sample_match
               not_found_response (initial sample_queue) [3; 2] 0 [1])
    as (st' & Hrun & Hcalls & Hafter & _);
    [reflexivity | reflexivity | reflexivity |].
  eexists. exists st'. split; [exact Hrun|]. split; [exact Hcalls|].
  rewrite Hcalls. apply (Hafter 1). apply list_elem_of_here.
Defined.

(** A callback that returns normally is called once. *)
Lemma finalize_error_xor_response_witness :
  exists ds,
    deliveries (finalize sample_prototype sample_stringify sample_number
                         sample_make_message sample_match
                         (fun _ => None) (Responded post_response)
                         (initial passing_queue)).2 = ds /\
    length ds = 1.
Proof.
  destruct (finalize_error_xor_response
              sample_prototype sample_stringify sample_number sample_make_message sample_match
              (fun _ => None) (Responded post_response) (initial passing_queue))
    as (ds & Hds & _ & _ & _ & Honce).
  exists ds. split; [exact Hds|]. apply Honce. intros d. reflexivity.
Defined.


(** [matchBodySnapshot({id: 1})] against a body without [id] fails
    although the matcher passes. *)
Lemma snapshot_check_missing_witness :
  exists e,
    _assertSnapshot sample_prototype sample_make_message sample_match post_response
      (body_snapshot_descriptor "    at test:1" sample_request (VObj [("id", VNum 1)]))
      (registered_error "    at test:1" sample_request VUndefined) = (Throw e, e) /\
    Err.expected e = VStr "id".
Proof.
  destruct (snapshot_check_missing sample_prototype sample_make_message sample_match
              "    at test:1" sample_request (VObj [("id", VNum 1)]) post_response
              _ (or_introl eq_refl))
    as [_ Hprops].
  destruct (Hprops [("id", VNum 1)] "id" eq_refl (list_elem_of_here _ _) eq_refl eq_refl)
    as (e & missing & Hrun & Hin & _ & Hexp & _).
  exists e. split; [exact Hrun|].
  apply list_elem_of_singleton in Hin. rewrite Hexp, Hin. reflexivity.
Defined.

(** [expectStatus(200)] against the 404 whose body is [{errors: []}]. *)
Lemma assertStatus_empty_errors_witness :
  exists prepared,
    _assertStatus sample_prototype sample_number empty_errors_response
      (mkAssertion FnAssertStatus (VStr "status")
                   (registered_error "    at test:1" sample_request (VNum 200))
                   (VNum 200) VUndefined VUndefined VUndefined VUndefined)
      (registered_error "    at test:1" sample_request (VNum 200))
    = (Throw message_of_undefined, prepared).
Proof.
  destruct (assertStatus_empty_errors sample_prototype sample_number empty_errors_response
              (mkAssertion FnAssertStatus (VStr "status")
                           (registered_error "    at test:1" sample_request (VNum 200))
                           (VNum 200) VUndefined VUndefined VUndefined VUndefined)
              (registered_error "    at test:1" sample_request (VNum 200)) eq_refl)
    as (prepared & Hrun & _).
  exists prepared. exact Hrun.
Defined.

(** ** Names a plain object inherits *)

(** [expectHeader('constructor', 'x')] against headers [{}]: the lookup
    reads the inherited [constructor], and the check throws the mismatch
    message. *)
Example inherited_header_name :
  exists e,
    _assertHeader sample_prototype sample_stringify null_id_response
      (header_descriptor "    at test:1" sample_request "constructor" (VStr "x"))
      (registered_error "    at test:1" sample_request VUndefined) = (Throw e, e) /\
    Err.message e =
      "Expected header " +:+ dquote +:+ "constructor: x" +:+ dquote +:+ ", got " +:+
      dquote +:+ "constructor: function Object() { [native code] }" +:+ dquote +:+
      " " +:+ toString sample_options.
Proof.
  apply (assertHeader_inherited_name
           sample_prototype sample_stringify "    at test:1" sample_request
           "constructor" "x" null_id_response [] "function Object() { [native code] }");
    [reflexivity | reflexivity | reflexivity | discriminate].
Qed.

(** [matchBodySnapshot({constructor: 1})] against the body
    [{title: 'Hello'}]: the body inherits [constructor], and with a
    matcher that passes the check passes. *)
Example inherited_snapshot_property :
  (_assertSnapshot sample_prototype sample_make_message sample_match post_response
     (body_snapshot_descriptor "    at test:1" sample_request
                               (VObj [("constructor", VNum 1)]))
     (registered_error "    at test:1" sample_request VUndefined)).1 = Ok tt.
Proof. reflexivity. Qed.

(** ** The further properties at the samples *)

Lemma assertAll_each_once_witness :
  exists evaluated,
    calls (_assertAll sample_prototype sample_stringify sample_number
                      sample_make_message sample_match
                      post_response (initial passing_queue)).2 = evaluated /\
    evaluated ≡ₚ [0; 1; 2; 3].
Proof.
  destruct (assertAll_each_once
              sample_prototype sample_stringify sample_number sample_make_message sample_match
              post_response (initial passing_queue))
    as (evaluated & Hcalls & _ & _ & Hall).
  exists evaluated. split; [exact Hcalls|]. apply Hall. reflexivity.
Defined.

Lemma finalize_empty_queue_witness :
  deliveries (finalize sample_prototype sample_stringify sample_number
                       sample_make_message sample_match
                       (fun _ => None) (Responded post_response)
                       (initial sample_request)).2 =
    [mkDelivery None (Some post_response)].
Proof.
  destruct (finalize_empty_queue
              sample_prototype sample_stringify sample_number sample_make_message sample_match
              (fun _ => None) post_response (initial sample_request) eq_refl)
    as (ds & Hds & _ & _ & Hquiet).
  destruct (Hquiet eq_refl) as [Hnil _]. rewrite Hds, Hnil. reflexivity.
Defined.

Lemma finalize_never_throws_witness :
  (finalize sample_prototype sample_stringify sample_number sample_make_message sample_match
            (fun _ => None) (Responded not_found_response)
            (initial sample_queue)).1 = Ok tt.
Proof.
  apply (finalize_never_throws
           sample_prototype sample_stringify sample_number sample_make_message sample_match
           (fun _ => None) (Responded not_found_response) (initial sample_queue)).
  intros d. reflexivity.
Defined.

Lemma finalize_delivers_response_iff_witness :
  deliveries (finalize sample_prototype sample_stringify sample_number
                       sample_make_message sample_match
                       (fun _ => None) (Responded post_response)
                       (initial passing_queue)).2 =
    [mkDelivery None (Some post_response)].
Proof.
  apply (finalize_delivers_response_iff
           sample_prototype sample_stringify sample_number sample_make_message sample_match
           (fun _ => None) post_response (initial passing_queue)).
  - intros d. reflexivity.
  - repeat constructor.
  - intros i Hi. simpl in Hi.
    destruct i as [|[|[|[|i]]]]; [reflexivity|reflexivity|reflexivity|reflexivity|lia].
Defined.

Lemma call_fn_keeps_origin_witness :
  Err.stack (call_fn sample_prototype sample_stringify sample_number
                     sample_make_message sample_match
                     not_found_response status_200 (error status_200)).2 =
    Err.stack (error status_200).
Proof.
  destruct (call_fn_keeps_origin
              sample_prototype sample_stringify sample_number sample_make_message sample_match
              not_found_response status_200 (error status_200))
    as [(_ & Hstack & _) _].
  exact Hstack.
Defined.

Lemma assertAll_preserves_queue_witness :
  length (assertions (this (_assertAll sample_prototype sample_stringify sample_number
                                       sample_make_message sample_match
                                       not_found_response (initial sample_queue)).2)) = 4.
Proof.
  destruct (assertAll_preserves_queue
              sample_prototype sample_stringify sample_number sample_make_message sample_match
              not_found_response (initial sample_queue))
    as [(Hsame & _) _].
  rewrite <- (Forall2_length _ _ _ Hsame). reflexivity.
Defined.

Lemma assertStatus_passes_iff_witness :
  is_ok (_assertStatus sample_prototype sample_number post_response status_200
                       (error status_200)).1 = true.
Proof.
  destruct (assertStatus_passes_iff sample_prototype sample_number post_response status_200
              (error status_200) VUndefined eq_refl)
    as (_ & Hnum & _).
  apply (Hnum 200%Z eq_refl). reflexivity.
Defined.

Lemma assertSnapshot_passes_iff_witness :
  is_ok (_assertSnapshot sample_prototype sample_make_message sample_match post_response
           (body_snapshot_descriptor "    at test:1" sample_request
                                     (VObj [("title", VStr "Hello")]))
           (registered_error "    at test:1" sample_request VUndefined)).1 = true.
Proof.
  destruct (assertSnapshot_passes_iff sample_prototype sample_make_message sample_match
                                      post_response
              (body_snapshot_descriptor "    at test:1" sample_request
                                        (VObj [("title", VStr "Hello")]))
              (registered_error "    at test:1" sample_request VUndefined)
              [("title", VStr "Hello")] eq_refl eq_refl)
    as [Hpass _].
  - intros prop Hin. apply list_elem_of_singleton in Hin. rewrite Hin.
    exists (VStr "Hello"). split; reflexivity.
  - apply Hpass. reflexivity.
Defined.

Lemma assertSnapshot_null_property_witness :
  exists e,
    _assertSnapshot sample_prototype sample_make_message sample_match null_id_response
      (body_snapshot_descriptor "    at test:1" sample_request (VObj [("id", VNum 1)]))
      (registered_error "    at test:1" sample_request VUndefined) = (Throw e, e) /\
    Err.actual e = VStr "undefined".
Proof.
  destruct (assertSnapshot_null_property sample_prototype sample_make_message sample_match
              null_id_response
              (body_snapshot_descriptor "    at test:1" sample_request
                                        (VObj [("id", VNum 1)]))
              (registered_error "    at test:1" sample_request VUndefined)
              [("id", VNum 1)] "id" eq_refl (list_elem_of_here _ _) eq_refl eq_refl)
    as (e & missing & Hrun & _ & _ & _ & Hactual).
  exists e. split; [exact Hrun|exact Hactual].
Defined.

Lemma assertSnapshot_null_target_witness :
  exists e,
    _assertSnapshot sample_prototype sample_make_message sample_match null_body_response
      (body_snapshot_descriptor "    at test:1" sample_request VUndefined)
      (registered_error "    at test:1" sample_request VUndefined) = (Throw e, e) /\
    Err.message e = "Unable to match snapshot on undefined field body GET /api/posts".
Proof.
  destruct (assertSnapshot_null_target sample_prototype sample_make_message sample_match
              null_body_response
              (body_snapshot_descriptor "    at test:1" sample_request VUndefined)
              (registered_error "    at test:1" sample_request VUndefined) eq_refl)
    as (e & Hrun & Hmsg & _).
  exists e. split; [exact Hrun|]. rewrite Hmsg. reflexivity.
Defined.

Lemma assertSnapshot_null_properties_witness :
  exists error',
    _assertSnapshot sample_prototype sample_make_message sample_match post_response
      (body_snapshot_descriptor "    at test:1" sample_request VNull)
      (registered_error "    at test:1" sample_request VUndefined) =
      (Throw keys_of_nothing, error').
Proof.
  destruct (assertSnapshot_null_properties sample_prototype sample_make_message sample_match
              "    at test:1" sample_request post_response
              (body_snapshot_descriptor "    at test:1" sample_request VNull)
              (registered_error "    at test:1" sample_request VUndefined)
              (or_introl eq_refl) eq_refl)
    as [_ Hrun].
  exact Hrun.
Defined.

Lemma assertHeader_without_headers_witness :
  exists t,
    _assertHeader sample_prototype sample_stringify bare_response
      (header_descriptor "    at test:1" sample_request "Content-Type" (VStr "text/html"))
      (registered_error "    at test:1" sample_request VUndefined) =
      (Throw t, registered_error "    at test:1" sample_request VUndefined) /\
    Err.name t = "TypeError".
Proof.
  apply (assertHeader_without_headers sample_prototype sample_stringify bare_response).
  reflexivity.
Defined.

(** [expectHeader('Content-Length', 5)] passes against the header text
    [5]. *)
Lemma assertHeader_literal_text_witness :
  is_ok (_assertHeader sample_prototype sample_stringify sized_response
           (header_descriptor "    at test:1" sample_request "Content-Length" (VNum 5))
           (registered_error "    at test:1" sample_request VUndefined)).1 = true.
Proof.
  apply (assertHeader_literal_text sample_prototype sample_stringify sized_response
           (header_descriptor "    at test:1" sample_request "Content-Length" (VNum 5))
           (registered_error "    at test:1" sample_request VUndefined)
           (VStr "5") eq_refl eq_refl eq_refl).
  reflexivity.
Defined.

Lemma expect_stack_rooted_at_site_witness :
  exists own,
    call_fn sample_prototype sample_stringify sample_number sample_make_message sample_match
      post_response
      (mkAssertion (FnWrapper failing_callback) (VStr "body")
                   (registered_error "    at test:1" sample_request VUndefined)
                   VUndefined VUndefined VUndefined VUndefined VUndefined)
      (registered_error "    at test:1" sample_request VUndefined) =
    (Throw (Err.set_stack
              ("AssertionError [ERR_ASSERTION]: title is missing" +:+ newline +:+
               "    at test:1")
              (Err.Error "title is missing" "    at callback")), own).
Proof.
  destruct (expect_stack_rooted_at_site
              sample_prototype sample_stringify sample_number sample_make_message sample_match
              "    at test:1" sample_request failing_callback post_response
              (Err.Error "title is missing" "    at callback") eq_refl)
    as (rendering & Hrun & Hfree).
  eexists. etransitivity; [exact Hrun|]. rewrite (Hfree eq_refl). reflexivity.
Defined.

Lemma chain_appends_witness :
  length (assertions (chain sample_chain sample_request).2) = 4 /\
  kind_of <$> assertions (chain sample_chain sample_request).2 !! 0 = Some Status.
Proof.
  destruct (chain_appends sample_chain sample_request)
    as (_ & _ & _ & _ & Hok).
  destruct (Hok eq_refl) as [Hlen Hkinds].
  split; [exact Hlen|].
  exact (Hkinds 0 ("    at test:1", CallExpectStatus (VNum 200)) eq_refl).
Defined.

Lemma expectHeader_requires_string_witness :
  exists t,
    expectHeader "    at test:1" VUndefined (VStr "text/html") sample_request =
      (Throw t, sample_request) /\
    Err.name t = "TypeError".
Proof.
  apply (expectHeader_requires_string "    at test:1" VUndefined (VStr "text/html")
           sample_request).
  intros s. discriminate.
Defined.

Lemma chain_then_assertAll_witness :
  exists evaluated,
    calls (_assertAll sample_prototype sample_stringify sample_number
                      sample_make_message sample_match
                      post_response
                      (initial (chain sample_chain sample_request).2)).2 = evaluated /\
    evaluated `prefix_of` [2; 3; 1; 0] /\
    length evaluated = 4.
Proof.
  destruct (chain_then_assertAll
              sample_prototype sample_stringify sample_number sample_make_message sample_match
              sample_chain sample_request post_response
              (initial (chain sample_chain sample_request).2)
              eq_refl eq_refl eq_refl)
    as (evaluated & Hcalls & Hprefix & Hlen).
  exists evaluated. split; [exact Hcalls|]. split; [exact Hprefix|].
  apply Hlen. reflexivity.
Defined.

Lemma assertStatus_cases_witness :
  (exists first prepared,
     nullish first = true /\
     _assertStatus sample_prototype sample_number empty_errors_response status_200
                   (error status_200) =
       (Throw (Err.TypeError ("Cannot read properties of " +:+ to_string first +:+
                              " (reading 'message')")), prepared)) /\
  (exists guard,
     (error_detail_guard sample_prototype not_found_response (error status_200)).1 =
       Ok guard).
Proof.
  destruct (assertStatus_cases sample_prototype sample_number empty_errors_response status_200
              (error status_200)) as [Hthrows _].
  destruct (assertStatus_cases sample_prototype sample_number not_found_response status_200
              (error status_200)) as [_ Hruns].
  split; [exact (Hthrows eq_refl)|].
  destruct (Hruns eq_refl) as (guard & Hguard & _).
  exists guard. exact Hguard.
Defined.
